(** * Bookings service: eligibility, capacity and the three booking operations

    A shallow embedding of [services/bookings-service] and of
    [repositories/booking-repository], with the tables of the database as
    finite maps from primary key to row, and [async] service code as a
    state-and-exception monad over the whole store. *)

From Stdlib Require Import ZArith Lia Bool Ascii String.
From stdpp Require Import gmap list fin_maps.

Local Open Scope Z_scope.

(** ** Rows and records, as the Prisma client types have them *)

Inductive TicketStatus := RESERVED | PAID.

Definition TicketStatus_eqb (a b : TicketStatus) : bool :=
  match a, b with
  | RESERVED, RESERVED | PAID, PAID => true
  | _, _ => false
  end.

Module TicketType.
Record t := mk { isRemote : bool; includesHotel : bool }.
End TicketType.

Module Enrollment.
Record t := mk { id : Z; userId : Z }.
End Enrollment.

Module Ticket.
Record t := mk { enrollmentId : Z; status : TicketStatus; TicketType : TicketType.t }.
End Ticket.

Module Room.
(** A [Room] as the client returns it. *)
Record t := mk { id : Z; capacity : Z; hotelId : Z }.
(** The columns of a Room row other than its primary key. *)
Record row := mkRow { row_capacity : Z; row_hotelId : Z }.
Definition of_row (k : Z) (r : row) : t :=
  {| id := k; capacity := row_capacity r; hotelId := row_hotelId r |}.
End Room.

Module Booking.
(** A [Booking] as the client returns it. *)
Record t := mk { id : Z; userId : Z; roomId : Z }.
(** The columns of a Booking row other than its primary key. *)
Record row := mkRow { row_userId : Z; row_roomId : Z }.
Definition of_row (k : Z) (r : row) : t :=
  {| id := k; userId := row_userId r; roomId := row_roomId r |}.
End Booking.

(** [type BookingWithRoom = { id: number, Room: Room }]: the result of the
    [select: { id: true, Room: true }] query. The joined room is the row the
    booking's [roomId] refers to; it is [None] only in a store that breaks
    the foreign key (see [fk_ok]). *)
Module BookingWithRoom.
Record t := mk { id : Z; Room : option Room.t }.
End BookingWithRoom.

(** [type BookingId = { bookingId: number }] *)
Module BookingId.
Record t := mk { bookingId : Z }.
End BookingId.

(** ** The store

    Room and Booking are tables keyed by their primary key. [bookingSeq] is
    the sequence the Booking table draws its autoincremented ids from. *)

Record Store := mkStore {
  enrollments : list Enrollment.t;
  tickets : list Ticket.t;
  rooms : gmap Z Room.row;
  bookings : gmap Z Booking.row;
  bookingSeq : Z
}.

Definition set_bookings (f : gmap Z Booking.row -> gmap Z Booking.row) (s : Store) : Store :=
{| enrollments := enrollments s; tickets := tickets s; rooms := rooms s;
     bookings := f (bookings s); bookingSeq := bookingSeq s |}.

Definition bump_bookingSeq (s : Store) : Store :=
{| enrollments := enrollments s; tickets := tickets s; rooms := rooms s;
     bookings := bookings s; bookingSeq := bookingSeq s + 1 |}.

(** ** Service monad: a store threaded through, and thrown errors

    [forbiddenError()] and [notFoundError()] are the two domain errors of
    [@/errors]; [PrismaError] stands for an exception of the storage layer
    (a unique-constraint or record-not-found failure of a write). *)

Inductive Error := ForbiddenError | NotFoundError | PrismaError.

Inductive Result (A : Type) :=
| Ok (a : A)
| Throw (e : Error).
Arguments Ok {A} a.
Arguments Throw {A} e.

Definition Svc (A : Type) : Type := Store -> Result A * Store.

Definition ret {A} (a : A) : Svc A := fun s => (Ok a, s).
Definition throw {A} (e : Error) : Svc A := fun s => (Throw e, s).
Definition bind {A B} (c : Svc A) (k : A -> Svc B) : Svc B :=
  fun s => match c s with
           | (Ok a, s') => k a s'
           | (Throw e, s') => (Throw e, s')
           end.
Definition gets {A} (f : Store -> A) : Svc A := fun s => (Ok (f s), s).

Declare Scope svc_scope.
Delimit Scope svc_scope with svc.
Notation "x <- c ;; k" := (bind c (fun x => k))
  (at level 100, c at next level, right associativity) : svc_scope.
Local Open Scope svc_scope.

(** ** Queries, as functions of the store *)

(** Modelled from the spec: [findEnrollmentWithAddressByUserId(userId) ->
    Enrollment | absent]; the enrollment repository is not part of the
    sources. The first enrollment row of the user is the answer. *)
Definition enrollmentOf (userId : Z) (s : Store) : option Enrollment.t :=
  List.find (fun e => Enrollment.userId e =? userId) (enrollments s).

(** Modelled from the spec: [findTicketByEnrollmentId(enrollmentId) ->
    Ticket{status, TicketType{isRemote, includesHotel}} | absent]; the ticket
    repository is not part of the sources. *)
Definition ticketOf (enrollmentId : Z) (s : Store) : option Ticket.t :=
  List.find (fun t => Ticket.enrollmentId t =? enrollmentId) (tickets s).

(** Modelled from the spec: [findRoomById(roomId) -> Room{id, capacity, ...}
    | absent]; the room repository is not part of the sources. *)
Definition lookupRoom (roomId : Z) (s : Store) : option Room.t :=
  Room.of_row roomId <$> rooms s !! roomId.

(** Rows of the Booking table that a [where] clause selects. *)
Definition bookingsOfUser (userId : Z) (s : Store) : gmap Z Booking.row :=
  filter (fun kr => Booking.row_userId kr.2 = userId) (bookings s).
Definition bookingsOnRoomId (roomId : Z) (s : Store) : gmap Z Booking.row :=
  filter (fun kr => Booking.row_roomId kr.2 = roomId) (bookings s).

(** [count(Booking where roomId = R)] and [count(Booking where userId = U)]. *)
Definition countOnRoom (roomId : Z) (s : Store) : Z :=
  Z.of_nat (size (bookingsOnRoomId roomId s)).
Definition countOfUser (userId : Z) (s : Store) : nat :=
  size (bookingsOfUser userId s).

(** [{ id, Room }] of a booking row, the room joined through [roomId]. *)
Definition withRoom (s : Store) (kr : Z * Booking.row) : BookingWithRoom.t :=
  {| BookingWithRoom.id := kr.1;
     BookingWithRoom.Room := lookupRoom (Booking.row_roomId kr.2) s |}.

(** The user's booking as [findFirst] picks it: the first matching row in
    the order the store enumerates the table. *)
Definition userBookingOf (userId : Z) (s : Store) : option BookingWithRoom.t :=
  withRoom s <$> head (map_to_list (bookingsOfUser userId s)).

Definition newRow (userId roomId : Z) : Booking.row :=
  {| Booking.row_userId := userId; Booking.row_roomId := roomId |}.

Definition movedRow (old : Booking.row) (roomId : Z) : Booking.row :=
  {| Booking.row_userId := Booking.row_userId old; Booking.row_roomId := roomId |}.

(** ** Repositories *)

Module enrollmentRepository.
Definition findWithAddressByUserId (userId : Z) : Svc (option Enrollment.t) :=
  gets (enrollmentOf userId).
End enrollmentRepository.

Module ticketRepository.
Definition findTicketByEnrollmentId (enrollmentId : Z) : Svc (option Ticket.t) :=
  gets (ticketOf enrollmentId).
End ticketRepository.

Module roomRepository.
Definition findRoomById (roomId : Z) : Svc (option Room.t) :=
  gets (lookupRoom roomId).
End roomRepository.

Module bookingRepository.
(** [prisma.booking.findUnique({ where: { id: bookingId } })] *)
Definition findById (bookingId : Z) : Svc (option Booking.t) :=
  gets (fun s => Booking.of_row bookingId <$> bookings s !! bookingId).

(** [prisma.booking.findFirst({ where: { userId }, select: { id: true,
    Room: true } })] *)
Definition findWithRoomByUserId (userId : Z) : Svc (option BookingWithRoom.t) :=
  gets (userBookingOf userId).

(** [prisma.booking.create({ data: { userId, roomId } })]: the id comes from
    the sequence, which advances whether or not the insert goes through; an
    id already in the table violates the primary key. *)
Definition createByUserIdAndRoomId (userId roomId : Z) : Svc Booking.t :=
  fun s =>
    let k := bookingSeq s in
    match bookings s !! k with
    | Some _ => (Throw PrismaError, bump_bookingSeq s)
    | None =>
        (Ok (Booking.of_row k (newRow userId roomId)),
         bump_bookingSeq (set_bookings (insert k (newRow userId roomId)) s))
    end.

(** [prisma.booking.update({ where: { id: bookingId }, data: { roomId } })]:
    the row keeps its id and its user; a missing row is an exception. *)
Definition updateByBookingIdAndRoomId (bookingId roomId : Z) : Svc Booking.t :=
  fun s =>
    match bookings s !! bookingId with
    | None => (Throw PrismaError, s)
    | Some old =>
        (Ok (Booking.of_row bookingId (movedRow old roomId)),
         set_bookings (insert bookingId (movedRow old roomId)) s)
    end.

(** [prisma.booking.count({ where: { roomId } })] *)
Definition countBookingsByRoomId (roomId : Z) : Svc Z :=
  gets (countOnRoom roomId).
End bookingRepository.

(** ** The service *)

Definition isUserAllowed (userId : Z) : Svc bool :=
  enrollment <- enrollmentRepository.findWithAddressByUserId userId ;;
  match enrollment with
  | None => ret false
  | Some enrollment =>
      ticket <- ticketRepository.findTicketByEnrollmentId (Enrollment.id enrollment) ;;
      match ticket with
      | None => ret false
      | Some ticket =>
          let isHostableTicketType :=
            negb (TicketType.isRemote (Ticket.TicketType ticket))
            && TicketType.includesHotel (Ticket.TicketType ticket) in
          let isTicketPaid := TicketStatus_eqb (Ticket.status ticket) PAID in
          if negb (isHostableTicketType && isTicketPaid) then ret false
          else ret true
      end
  end.

Definition isRoomFull (room : Room.t) : Svc bool :=
  let capacity := Room.capacity room in
  bookingsOnRoom <- bookingRepository.countBookingsByRoomId (Room.id room) ;;
  let isFull := bookingsOnRoom =? capacity in
  ret isFull.

Definition getBooking (userId : Z) : Svc BookingWithRoom.t :=
  allowed <- isUserAllowed userId ;;
  if negb allowed then throw ForbiddenError else
  bookingWithRoom <- bookingRepository.findWithRoomByUserId userId ;;
  match bookingWithRoom with
  | None => throw NotFoundError
  | Some bookingWithRoom => ret bookingWithRoom
  end.

Definition createBooking (userId roomId : Z) : Svc BookingId.t :=
  if roomId <? 1 then throw ForbiddenError else
  allowed <- isUserAllowed userId ;;
  if negb allowed then throw ForbiddenError else
  bookingWithRoom <- bookingRepository.findWithRoomByUserId userId ;;
  match bookingWithRoom with
  | Some _ => throw ForbiddenError
  | None =>
      room <- roomRepository.findRoomById roomId ;;
      match room with
      | None => throw NotFoundError
      | Some room =>
          full <- isRoomFull room ;;
          if full then throw ForbiddenError else
          createdBooking <- bookingRepository.createByUserIdAndRoomId userId roomId ;;
          ret {| BookingId.bookingId := Booking.id createdBooking |}
      end
  end.

Definition updateBooking (userId bookingId roomId : Z) : Svc BookingId.t :=
  if (roomId <? 1) || (bookingId <? 1) then throw ForbiddenError else
  allowed <- isUserAllowed userId ;;
  if negb allowed then throw ForbiddenError else
  room <- roomRepository.findRoomById roomId ;;
  booking <- bookingRepository.findById bookingId ;;
  match room, booking with
  | Some room, Some booking =>
      userBooking <- bookingRepository.findWithRoomByUserId userId ;;
      let isBookingIdFromUser :=
        match userBooking with
        | Some userBooking => BookingWithRoom.id userBooking =? bookingId
        | None => false
        end in
      if negb isBookingIdFromUser then throw ForbiddenError else
      let isRoomTheSame := Booking.roomId booking =? roomId in
      if isRoomTheSame then throw ForbiddenError else
      full <- isRoomFull room ;;
      if full then throw ForbiddenError else
      updatedBooking <- bookingRepository.updateByBookingIdAndRoomId bookingId roomId ;;
      ret {| BookingId.bookingId := bookingId |}
  | _, _ => throw NotFoundError
  end.

(** ** Outcomes, invariants and preconditions *)

(** The outcome and the final store of a run. *)
Definition outcome {A} (c : Svc A) (s : Store) : Result A := fst (c s).
Definition final {A} (c : Svc A) (s : Store) : Store := snd (c s).

(** The two domain failures, AuthorizationDenied and NotFound. *)
Definition domain_error (e : Error) : Prop := e = ForbiddenError \/ e = NotFoundError.
Definition failed {A} (r : Result A) : Prop := exists e, domain_error e /\ r = Throw e.

(** I2 / P1: no room holds more bookings than its capacity. *)
Definition capacity_ok (s : Store) : Prop :=
  map_Forall (fun k r => countOnRoom k s <= Room.row_capacity r) (rooms s).

(** I1 / P2: no user holds two bookings. *)
Definition single_booking (s : Store) : Prop :=
  forall u, (countOfUser u s <= 1)%nat.

(** The same, row against row: two rows of one user are one row. *)
Definition one_row_per_user (m : gmap Z Booking.row) : Prop :=
  map_Forall (fun k b =>
    map_Forall (fun k' b' => Booking.row_userId b = Booking.row_userId b' -> k = k') m) m.

(** Integrity constraints of the database schema: serial primary keys start
    at 1, the Booking sequence is ahead of every id in the table, and a
    booking's [roomId] is a foreign key into Room. *)
Definition ids_ok (s : Store) : Prop :=
  map_Forall (fun k _ => 1 <= k) (rooms s) /\ map_Forall (fun k _ => 1 <= k) (bookings s).
Definition seq_ok (s : Store) : Prop :=
  1 <= bookingSeq s /\ map_Forall (fun k _ => k < bookingSeq s) (bookings s).
Definition fk_ok (s : Store) : Prop :=
  map_Forall (fun _ b => is_Some (rooms s !! Booking.row_roomId b)) (bookings s).
Definition store_ok (s : Store) : Prop := ids_ok s /\ seq_ok s /\ fk_ok s.

#[global] Instance capacity_ok_dec s : Decision (capacity_ok s).
Proof. unfold capacity_ok. apply _. Defined.
#[global] Instance one_row_per_user_dec m : Decision (one_row_per_user m).
Proof. unfold one_row_per_user. apply _. Defined.
#[global] Instance fk_ok_dec s : Decision (fk_ok s).
Proof. unfold fk_ok. apply _. Defined.
#[global] Instance store_ok_dec s : Decision (store_ok s).
Proof. unfold store_ok, ids_ok, seq_ok. apply _. Defined.

(** The user is eligible: the eligibility check answers [true]. *)
Definition eligible (userId : Z) (s : Store) : Prop :=
  isUserAllowed userId s = (Ok true, s).

(** Every check of [createBooking] lets the request through. *)
Definition create_guards (userId roomId : Z) (s : Store) : Prop :=
  1 <= roomId
  /\ eligible userId s
  /\ userBookingOf userId s = None
  /\ exists r, rooms s !! roomId = Some r /\ countOnRoom roomId s <> Room.row_capacity r.

(** Every check of [updateBooking] lets the request through. *)
Definition update_guards (userId bookingId roomId : Z) (s : Store) : Prop :=
  1 <= roomId /\ 1 <= bookingId
  /\ eligible userId s
  /\ (exists r, rooms s !! roomId = Some r /\ countOnRoom roomId s <> Room.row_capacity r)
  /\ exists old, bookings s !! bookingId = Some old
       /\ (exists bw, userBookingOf userId s = Some bw /\ BookingWithRoom.id bw = bookingId)
       /\ Booking.row_roomId old <> roomId.

(** Whether a row is selected, as a number to add to a count. *)
Definition hit (P : Z * Booking.row -> Prop) `{!forall kr, Decision (P kr)}
    (kr : Z * Booking.row) : nat :=
  if decide (P kr) then 1%nat else 0%nat.

(** ** Stores to run the service on *)

Definition hotelTicket (enrollmentId : Z) (status : TicketStatus) : Ticket.t :=
  {| Ticket.enrollmentId := enrollmentId; Ticket.status := status;
     Ticket.TicketType := {| TicketType.isRemote := false;
                             TicketType.includesHotel := true |} |}.

(** Users 1 to 4 are enrolled with a paid hotel ticket, user 5 is not
    enrolled. Room 5 takes two guests and room 6 one; user 2 holds booking 1
    on room 5. *)
Definition demo : Store :=
  {| enrollments :=
       [ {| Enrollment.id := 10; Enrollment.userId := 1 |};
         {| Enrollment.id := 20; Enrollment.userId := 2 |};
         {| Enrollment.id := 30; Enrollment.userId := 3 |};
         {| Enrollment.id := 40; Enrollment.userId := 4 |} ];
     tickets := [ hotelTicket 10 PAID; hotelTicket 20 PAID;
                  hotelTicket 30 PAID; hotelTicket 40 PAID ];
     rooms := {[ 5 := {| Room.row_capacity := 2; Room.row_hotelId := 1 |};
                 6 := {| Room.row_capacity := 1; Room.row_hotelId := 1 |} ]};
     bookings := {[ 1 := newRow 2 5 ]};
     bookingSeq := 2 |}.

(** The store a lost race leaves behind: room 6 takes one guest and holds
    the bookings of users 2 and 3; user 4 holds booking 3 on room 5. *)
Definition overbooked : Store :=
  {| enrollments := enrollments demo;
     tickets := tickets demo;
     rooms := rooms demo;
     bookings := {[ 1 := newRow 2 6; 2 := newRow 3 6; 3 := newRow 4 5 ]};
     bookingSeq := 4 |}.

(** ** Controllers

    The handlers of [controllers/bookings-controller]. A request reaches
    them authenticated and validated; its fields are taken here as the
    numbers the handler works with, [roomId] and [bookingId] after
    [Number(...)]. *)

Module httpStatus.
Definition OK : Z := 200.
Definition FORBIDDEN : Z := 403.
Definition NOT_FOUND : Z := 404.
End httpStatus.

Record AuthenticatedRequest := mkRequest {
  req_userId : Z;
  req_body_roomId : Z;
  req_params_bookingId : Z
}.

(** What a handler does with [res]: [res.status(code).send(body)],
    [res.sendStatus(code)], or nothing at all. *)
Inductive Response (A : Type) :=
| send (status : Z) (body : A)
| sendStatus (status : Z)
| noResponse.
Arguments send {A} status body.
Arguments sendStatus {A} status.
Arguments noResponse {A}.

(** The [catch (error)] block the three handlers share: two error names
    are answered, any other error falls out of the [if] without a response
    and without being thrown again. *)
Definition onError {A} (error : Error) : Response A :=
  match error with
  | ForbiddenError => sendStatus httpStatus.FORBIDDEN
  | NotFoundError => sendStatus httpStatus.NOT_FOUND
  | PrismaError => noResponse
  end.

Definition Handler (A : Type) : Type := Store -> Response A * Store.

Module controllers.
Definition postBooking (req : AuthenticatedRequest) : Handler BookingId.t :=
  fun s =>
    let userId := req_userId req in
    let roomId := req_body_roomId req in
    match createBooking userId roomId s with
    | (Ok bookingIdResponse, s') => (send httpStatus.OK bookingIdResponse, s')
    | (Throw error, s') => (onError error, s')
    end.

Definition putBooking (req : AuthenticatedRequest) : Handler BookingId.t :=
  fun s =>
    let userId := req_userId req in
    let roomId := req_body_roomId req in
    let bookingId := req_params_bookingId req in
    match updateBooking userId bookingId roomId s with
    | (Ok bookingIdResponse, s') => (send httpStatus.OK bookingIdResponse, s')
    | (Throw error, s') => (onError error, s')
    end.

Definition getBooking (req : AuthenticatedRequest) : Handler BookingWithRoom.t :=
  fun s =>
    let userId := req_userId req in
    match getBooking userId s with
    | (Ok bookingWithRoom, s') => (send httpStatus.OK bookingWithRoom, s')
    | (Throw error, s') => (onError error, s')
    end.
End controllers.

(** ** Router

    [bookingsRouter] sends GET to [getBooking], POST to [postBooking] and
    PUT [/:bookingId] to [putBooking]. The status of the answer is what a
    client sees of all three. *)

Inductive Method := GET | POST | PUT.

Definition statusOf {A} (r : Response A) : option Z :=
  match r with
  | send status _ => Some status
  | sendStatus status => Some status
  | noResponse => None
  end.

Definition bookingsRouter (m : Method) (req : AuthenticatedRequest) (s : Store)
  : option Z * Store :=
  match m with
  | GET => let '(r, s') := controllers.getBooking req s in (statusOf r, s')
  | POST => let '(r, s') := controllers.postBooking req s in (statusOf r, s')
  | PUT => let '(r, s') := controllers.putBooking req s in (statusOf r, s')
  end.


(** Requests served one after the other, each on the store the one before
    left. *)
Definition serveAll (reqs : list (Method * AuthenticatedRequest)) (s : Store) : Store :=
  fold_left (fun s mr => snd (bookingsRouter mr.1 mr.2 s)) reqs s.

(** ** The pattern of the request schemas

    [/^-?[0-9]+$/], which [bookingParamsSchema] puts on [bookingId]: regular
    expressions with their derivatives, and the pattern as it is written. *)

Inductive regex :=
| Empty
| Eps
| Chr (c : ascii)
| Range (lo hi : ascii)
| Alt (r1 r2 : regex)
| Seq (r1 r2 : regex)
| Star (r : regex).

(** [r?] and [r+] *)
Definition Opt (r : regex) : regex := Alt r Eps.
Definition Plus (r : regex) : regex := Seq r (Star r).

Definition inRange (lo hi c : ascii) : bool :=
  (nat_of_ascii lo <=? nat_of_ascii c)%nat && (nat_of_ascii c <=? nat_of_ascii hi)%nat.

Fixpoint nullable (r : regex) : bool :=
  match r with
  | Empty => false
  | Eps => true
  | Chr _ => false
  | Range _ _ => false
  | Alt r1 r2 => nullable r1 || nullable r2
  | Seq r1 r2 => nullable r1 && nullable r2
  | Star _ => true
  end.

Fixpoint deriv (c : ascii) (r : regex) : regex :=
  match r with
  | Empty => Empty
  | Eps => Empty
  | Chr c' => if Ascii.eqb c' c then Eps else Empty
  | Range lo hi => if inRange lo hi c then Eps else Empty
  | Alt r1 r2 => Alt (deriv c r1) (deriv c r2)
  | Seq r1 r2 =>
      if nullable r1 then Alt (Seq (deriv c r1) r2) (deriv c r2)
      else Seq (deriv c r1) r2
  | Star r1 => Seq (deriv c r1) (Star r1)
  end.

(** [regex.test(s)] for a pattern anchored at both ends. *)
Fixpoint test (r : regex) (s : list ascii) : bool :=
  match s with
  | [] => nullable r
  | c :: s' => test (deriv c r) s'
  end.

Definition digits : regex := Seq (Opt (Chr "-")) (Plus (Range "0" "9")).

Definition bookingParamsSchema (bookingId : string) : bool :=
  test digits (list_ascii_of_string bookingId).

(** The strings a pattern stands for. *)
Inductive lang : regex -> list ascii -> Prop :=
| lang_Eps : lang Eps []
| lang_Chr c : lang (Chr c) [c]
| lang_Range lo hi c : inRange lo hi c = true -> lang (Range lo hi) [c]
| lang_Alt_l r1 r2 s : lang r1 s -> lang (Alt r1 r2) s
| lang_Alt_r r1 r2 s : lang r2 s -> lang (Alt r1 r2) s
| lang_Seq r1 r2 s1 s2 : lang r1 s1 -> lang r2 s2 -> lang (Seq r1 r2) (s1 ++ s2)
| lang_Star_nil r : lang (Star r) []
| lang_Star_app r s1 s2 : lang r s1 -> lang (Star r) s2 -> lang (Star r) (s1 ++ s2).

Definition isDigit (c : ascii) : Prop := inRange "0" "9" c = true.

(** What no operation undoes: the tables it only reads are the same, the
    id sequence has not gone back, and every booking is still there, with
    the user it had. *)
Definition keeps (s s' : Store) : Prop :=
  enrollments s' = enrollments s
  /\ tickets s' = tickets s
  /\ rooms s' = rooms s
  /\ bookingSeq s <= bookingSeq s'
  /\ forall k old, bookings s !! k = Some old ->
       exists new, bookings s' !! k = Some new
                   /\ Booking.row_userId new = Booking.row_userId old.

(** The three invariants together. *)
Definition consistent (s : Store) : Prop :=
  store_ok s /\ capacity_ok s /\ single_booking s.

(** * Proofs *)

(** ** Running the reads *)

Lemma bind_ok {A B} (c : Svc A) (k : A -> Svc B) s a s' :
  c s = (Ok a, s') -> bind c k s = k a s'.
Proof. unfold bind. intros ->. reflexivity. Qed.

(** The eligibility check reads two tables and returns. *)
Lemma isUserAllowed_total userId s :
  exists b, isUserAllowed userId s = (Ok b, s).
Proof.
  unfold isUserAllowed, bind, enrollmentRepository.findWithAddressByUserId,
    ticketRepository.findTicketByEnrollmentId, gets, ret.
  destruct (enrollmentOf userId s) as [e|]; [|by eexists].
  destruct (ticketOf (Enrollment.id e) s) as [t|]; [|by eexists].
  destruct (negb _); by eexists.
Qed.

Lemma not_enrolled_not_allowed userId s :
  enrollmentOf userId s = None -> isUserAllowed userId s = (Ok false, s).
Proof.
  intros He. unfold isUserAllowed, bind,
    enrollmentRepository.findWithAddressByUserId, gets. by rewrite He.
Qed.

Lemma isRoomFull_run room s :
  isRoomFull room s = (Ok (countOnRoom (Room.id room) s =? Room.capacity room), s).
Proof. reflexivity. Qed.

Lemma findRoomById_run roomId s :
  roomRepository.findRoomById roomId s = (Ok (lookupRoom roomId s), s).
Proof. reflexivity. Qed.

Lemma findById_run bookingId s :
  bookingRepository.findById bookingId s
  = (Ok (Booking.of_row bookingId <$> bookings s !! bookingId), s).
Proof. reflexivity. Qed.

Lemma findWithRoomByUserId_run userId s :
  bookingRepository.findWithRoomByUserId userId s = (Ok (userBookingOf userId s), s).
Proof. reflexivity. Qed.

Lemma userBookingOf_None userId s :
  userBookingOf userId s = None <-> bookingsOfUser userId s = ∅.
Proof.
  unfold userBookingOf. rewrite fmap_None, head_None. apply map_to_list_empty_iff.
Qed.

Lemma userBookingOf_Some userId s bw :
  userBookingOf userId s = Some bw ->
  exists r, bookings s !! BookingWithRoom.id bw = Some r
            /\ Booking.row_userId r = userId
            /\ BookingWithRoom.Room bw = lookupRoom (Booking.row_roomId r) s.
Proof.
  unfold userBookingOf. rewrite fmap_Some. intros [[k r] [Hhd ->]].
  apply head_Some_elem_of, elem_of_map_to_list in Hhd.
  apply map_lookup_filter_Some in Hhd as [Hk Hu]. simpl in *. eauto.
Qed.

Lemma bookingsOfUser_empty userId s :
  bookingsOfUser userId s = ∅ <->
  forall k r, bookings s !! k = Some r -> Booking.row_userId r <> userId.
Proof.
  unfold bookingsOfUser. rewrite map_empty. split.
  - intros H k r Hk Hu. specialize (H k).
    apply map_lookup_filter_None in H as [H|H]; [congruence|].
    by apply (H r).
  - intros H k. apply map_lookup_filter_None. right. intros r Hk. simpl. eauto.
Qed.

(** ** Counting the rows a [where] clause selects, across a write *)

Section Counting.
Context (P : Z * Booking.row -> Prop) `{!forall kr, Decision (P kr)}.

Lemma size_filter_insert (m : gmap Z Booking.row) k r :
  size (filter P (<[k:=r]> m)) = (size (filter P (delete k m)) + hit P (k, r))%nat.
Proof.
  rewrite <- insert_delete_eq, map_filter_insert. unfold hit.
  case_decide.
  - rewrite map_size_insert_None; [lia|].
    apply map_lookup_filter_None. left. apply lookup_delete_eq.
  - rewrite delete_delete_eq. lia.
Qed.

Lemma size_filter_lookup (m : gmap Z Booking.row) k old :
  m !! k = Some old ->
  size (filter P m) = (size (filter P (delete k m)) + hit P (k, old))%nat.
Proof.
  intros Hk. rewrite <- (insert_delete_id m k old) at 1 by done.
  rewrite size_filter_insert. by rewrite delete_delete_eq.
Qed.

Lemma size_filter_fresh (m : gmap Z Booking.row) k r :
  m !! k = None ->
  size (filter P (<[k:=r]> m)) = (size (filter P m) + hit P (k, r))%nat.
Proof. intros Hk. rewrite size_filter_insert. by rewrite delete_id. Qed.

Lemma size_filter_replace (m : gmap Z Booking.row) k old r :
  m !! k = Some old ->
  (size (filter P (<[k:=r]> m)) + hit P (k, old) = size (filter P m) + hit P (k, r))%nat.
Proof.
  intros Hk. rewrite size_filter_insert, (size_filter_lookup m k old Hk). lia.
Qed.
End Counting.

(** ** The checks of each operation, and what happens behind them *)

Ltac run_allowed u s :=
  let b := fresh "allowed" in
  let Hb := fresh "Hallowed" in
  destruct (isUserAllowed_total u s) as [b Hb];
  rewrite (bind_ok _ _ s _ _ Hb); destruct b; cbn [negb]; cbv iota.

Ltac bail_with e := right; exists e; split; [unfold domain_error; tauto | reflexivity].

Lemma getBooking_cases userId s :
  (exists bw, eligible userId s
              /\ userBookingOf userId s = Some bw
              /\ getBooking userId s = (Ok bw, s))
  \/ (exists e, domain_error e /\ getBooking userId s = (Throw e, s)).
Proof.
  unfold getBooking. run_allowed userId s; [|bail_with ForbiddenError].
  rewrite (bind_ok _ _ s _ _ (findWithRoomByUserId_run userId s)).
  destruct (userBookingOf userId s) as [bw|] eqn:Hbw; [|bail_with NotFoundError].
  left. exists bw. auto.
Qed.

Lemma createBooking_cases userId roomId s :
  (create_guards userId roomId s
   /\ createBooking userId roomId s
      = bind (bookingRepository.createByUserIdAndRoomId userId roomId)
             (fun createdBooking => ret {| BookingId.bookingId := Booking.id createdBooking |}) s)
  \/ (exists e, domain_error e /\ createBooking userId roomId s = (Throw e, s)).
Proof.
  unfold createBooking.
  destruct (roomId <? 1) eqn:Hr; [bail_with ForbiddenError|].
  apply Z.ltb_ge in Hr.
  run_allowed userId s; [|bail_with ForbiddenError].
  rewrite (bind_ok _ _ s _ _ (findWithRoomByUserId_run userId s)).
  destruct (userBookingOf userId s) as [bw|] eqn:Hbw; [bail_with ForbiddenError|].
  rewrite (bind_ok _ _ s _ _ (findRoomById_run roomId s)).
  unfold lookupRoom.
  destruct (rooms s !! roomId) as [r|] eqn:Hroom; simpl; [|bail_with NotFoundError].
  rewrite (bind_ok _ _ s _ _ (isRoomFull_run _ s)). simpl.
  destruct (countOnRoom roomId s =? Room.row_capacity r) eqn:Hfull;
    [bail_with ForbiddenError|].
  apply Z.eqb_neq in Hfull.
  left. split; [|reflexivity]. unfold create_guards. eauto 10.
Qed.

Lemma updateBooking_cases userId bookingId roomId s :
  (update_guards userId bookingId roomId s
   /\ updateBooking userId bookingId roomId s
      = bind (bookingRepository.updateByBookingIdAndRoomId bookingId roomId)
             (fun _ => ret {| BookingId.bookingId := bookingId |}) s)
  \/ (exists e, domain_error e /\ updateBooking userId bookingId roomId s = (Throw e, s)).
Proof.
  unfold updateBooking.
  destruct (roomId <? 1) eqn:Hr; [bail_with ForbiddenError|].
  destruct (bookingId <? 1) eqn:Hb; [bail_with ForbiddenError|].
  apply Z.ltb_ge in Hr, Hb. cbn [orb]; cbv iota.
  run_allowed userId s; [|bail_with ForbiddenError].
  rewrite (bind_ok _ _ s _ _ (findRoomById_run roomId s)).
  rewrite (bind_ok _ _ s _ _ (findById_run bookingId s)).
  unfold lookupRoom.
  destruct (rooms s !! roomId) as [r|] eqn:Hroom; simpl; [|bail_with NotFoundError].
  destruct (bookings s !! bookingId) as [old|] eqn:Hold; simpl; [|bail_with NotFoundError].
  rewrite (bind_ok _ _ s _ _ (findWithRoomByUserId_run userId s)).
  destruct (userBookingOf userId s) as [bw|] eqn:Hbw; [|bail_with ForbiddenError].
  destruct (BookingWithRoom.id bw =? bookingId) eqn:Hown; simpl;
    [|bail_with ForbiddenError].
  apply Z.eqb_eq in Hown.
  destruct (Booking.row_roomId old =? roomId) eqn:Hsame; [bail_with ForbiddenError|].
  apply Z.eqb_neq in Hsame.
  rewrite (bind_ok _ _ s _ _ (isRoomFull_run _ s)). simpl.
  destruct (countOnRoom roomId s =? Room.row_capacity r) eqn:Hfull;
    [bail_with ForbiddenError|].
  apply Z.eqb_neq in Hfull.
  left. split; [|reflexivity]. unfold update_guards. eauto 15.
Qed.

Ltac step H := rewrite (bind_ok _ _ _ _ _ H); cbn [negb]; cbv iota.

Lemma createBooking_pass userId roomId s :
  create_guards userId roomId s ->
  createBooking userId roomId s
  = bind (bookingRepository.createByUserIdAndRoomId userId roomId)
         (fun createdBooking => ret {| BookingId.bookingId := Booking.id createdBooking |}) s.
Proof.
  intros (Hr & Hel & Hnone & r & Hroom & Hne). unfold createBooking.
  destruct (Z.ltb_spec roomId 1) as [?|_]; [lia|].
  step Hel. step (findWithRoomByUserId_run userId s). rewrite Hnone.
  step (findRoomById_run roomId s). unfold lookupRoom. rewrite Hroom.
  change (Room.of_row roomId <$> Some r) with (Some (Room.of_row roomId r)). cbv iota.
  step (isRoomFull_run (Room.of_row roomId r) s). cbn [Room.id Room.capacity Room.of_row].
  apply Z.eqb_neq in Hne. by rewrite Hne.
Qed.

Lemma updateBooking_pass userId bookingId roomId s :
  update_guards userId bookingId roomId s ->
  updateBooking userId bookingId roomId s
  = bind (bookingRepository.updateByBookingIdAndRoomId bookingId roomId)
         (fun _ => ret {| BookingId.bookingId := bookingId |}) s.
Proof.
  intros (Hr & Hb & Hel & (r & Hroom & Hne) & old & Hold & (bw & Hbw & Hown) & Hdiff).
  unfold updateBooking.
  destruct (Z.ltb_spec roomId 1) as [?|_]; [lia|].
  destruct (Z.ltb_spec bookingId 1) as [?|_]; [lia|]. cbn [orb]; cbv iota.
  step Hel. step (findRoomById_run roomId s). step (findById_run bookingId s).
  unfold lookupRoom. rewrite Hroom, Hold.
  change (Room.of_row roomId <$> Some r) with (Some (Room.of_row roomId r)).
  change (Booking.of_row bookingId <$> Some old) with (Some (Booking.of_row bookingId old)).
  cbv iota.
  step (findWithRoomByUserId_run userId s). rewrite Hbw.
  apply Z.eqb_eq in Hown. rewrite Hown. cbn [negb]; cbv iota.
  apply Z.eqb_neq in Hdiff. cbn [Booking.roomId Booking.of_row]. rewrite Hdiff.
  step (isRoomFull_run (Room.of_row roomId r) s). cbn [Room.id Room.capacity Room.of_row].
  apply Z.eqb_neq in Hne. by rewrite Hne.
Qed.

Lemma lookupRoom_Some roomId s room :
  lookupRoom roomId s = Some room ->
  Room.id room = roomId
  /\ exists r, rooms s !! roomId = Some r /\ Room.row_capacity r = Room.capacity room.
Proof.
  unfold lookupRoom. rewrite fmap_Some. intros (r & Hr & ->). simpl. eauto.
Qed.

(** ** The mutating step *)

Lemma create_write_fresh userId roomId s :
  bookings s !! bookingSeq s = None ->
  bind (bookingRepository.createByUserIdAndRoomId userId roomId)
       (fun createdBooking => ret {| BookingId.bookingId := Booking.id createdBooking |}) s
  = (Ok {| BookingId.bookingId := bookingSeq s |},
     bump_bookingSeq (set_bookings (insert (bookingSeq s) (newRow userId roomId)) s)).
Proof.
  intros Hk. unfold bind, bookingRepository.createByUserIdAndRoomId. by rewrite Hk.
Qed.

Lemma create_write_clash userId roomId s :
  is_Some (bookings s !! bookingSeq s) ->
  bind (bookingRepository.createByUserIdAndRoomId userId roomId)
       (fun createdBooking => ret {| BookingId.bookingId := Booking.id createdBooking |}) s
  = (Throw PrismaError, bump_bookingSeq s).
Proof.
  intros [b Hk]. unfold bind, bookingRepository.createByUserIdAndRoomId. by rewrite Hk.
Qed.

Lemma update_write bookingId roomId old s :
  bookings s !! bookingId = Some old ->
  bind (bookingRepository.updateByBookingIdAndRoomId bookingId roomId)
       (fun _ => ret {| BookingId.bookingId := bookingId |}) s
  = (Ok {| BookingId.bookingId := bookingId |},
     set_bookings (insert bookingId (movedRow old roomId)) s).
Proof.
  intros Hk. unfold bind, bookingRepository.updateByBookingIdAndRoomId. by rewrite Hk.
Qed.

Lemma seq_ok_fresh s : seq_ok s -> bookings s !! bookingSeq s = None.
Proof.
  intros [_ Hseq]. destruct (bookings s !! bookingSeq s) as [b|] eqn:Hk; [|done].
  apply Hseq in Hk. lia.
Qed.

(** ** Evaluating on a concrete store *)

Ltac by_deciding :=
  match goal with |- ?P => apply (bool_decide_unpack P); vm_compute; exact I end.

Ltac by_running := first [ lia | reflexivity | vm_compute; reflexivity | vm_compute; congruence ].

(** ** Eligibility *)

Lemma TicketStatus_eqb_eq a b : TicketStatus_eqb a b = true <-> a = b.
Proof. destruct a, b; simpl; split; congruence. Qed.

(** C5. [isUserAllowed] always returns, writes nothing, and answers [true]
    exactly when the user's enrollment exists, a ticket tied to that
    enrollment exists, the ticket type is not remote, it includes the hotel,
    and the ticket is PAID; a missing enrollment or ticket gives [false],
    not an error. *)
Theorem isUserAllowed_iff (userId : Z) (s : Store) :
  exists b,
    isUserAllowed userId s = (Ok b, s)
    /\ (b = true <->
        exists e t,
          enrollmentOf userId s = Some e
          /\ ticketOf (Enrollment.id e) s = Some t
          /\ TicketType.isRemote (Ticket.TicketType t) = false
          /\ TicketType.includesHotel (Ticket.TicketType t) = true
          /\ Ticket.status t = PAID)
    /\ (enrollmentOf userId s = None -> b = false)
    /\ (forall e, enrollmentOf userId s = Some e ->
                  ticketOf (Enrollment.id e) s = None -> b = false).
Proof.
  unfold isUserAllowed, bind, enrollmentRepository.findWithAddressByUserId,
    ticketRepository.findTicketByEnrollmentId, gets, ret.
  destruct (enrollmentOf userId s) as [e|] eqn:He.
  2:{ exists false. repeat split; try congruence. intros (e & t & ? & _). congruence. }
  destruct (ticketOf (Enrollment.id e) s) as [t|] eqn:Ht.
  2:{ exists false. repeat split; try congruence.
      intros (e' & t' & [= <-] & Ht' & _). congruence. }
  destruct (negb _) eqn:Hneg.
  - exists false. repeat split; try congruence.
    intros (e' & t' & [= <-] & Ht' & Hrem & Hhot & Hpaid).
    rewrite Ht in Ht'. injection Ht' as <-.
    rewrite Hrem, Hhot, Hpaid in Hneg. discriminate.
  - exists true. repeat split; try congruence. intros _. exists e, t.
    apply negb_false_iff in Hneg.
    apply andb_true_iff in Hneg as [Hhost Hpaid].
    apply andb_true_iff in Hhost as [Hrem Hhot].
    apply negb_true_iff in Hrem. apply TicketStatus_eqb_eq in Hpaid. auto.
Qed.

Lemma isUserAllowed_iff_witness :
  isUserAllowed 5 demo = (Ok false, demo) /\ isUserAllowed 1 demo = (Ok true, demo).
Proof.
  destruct (isUserAllowed_iff 5 demo) as (b5 & Hrun5 & _ & Hnone & _).
  destruct (isUserAllowed_iff 1 demo) as (b1 & Hrun1 & Hiff & _).
  split.
  - rewrite Hrun5. by rewrite (Hnone eq_refl).
  - rewrite Hrun1. replace b1 with true; [done|]. symmetry. apply Hiff.
    exists {| Enrollment.id := 10; Enrollment.userId := 1 |}, (hotelTicket 10 PAID).
    by repeat split.
Defined.

(** ** Capacity checker *)

(** C4. [isRoomFull] answers [true] exactly when the number of bookings on
    the room equals its capacity. So once the count exceeds the capacity it
    answers [false], and the capacity check of [createBooking] and of
    [updateBooking] lets the request through: with every other check passed,
    both operations succeed on an overbooked room. *)
Theorem isRoomFull_exact_equality (room : Room.t) (s : Store) :
  (exists b, isRoomFull room s = (Ok b, s)
             /\ (b = true <-> countOnRoom (Room.id room) s = Room.capacity room))
  /\ (Room.capacity room < countOnRoom (Room.id room) s ->
      isRoomFull room s = (Ok false, s)
      /\ (forall userId,
            lookupRoom (Room.id room) s = Some room ->
            1 <= Room.id room ->
            eligible userId s ->
            userBookingOf userId s = None ->
            bookings s !! bookingSeq s = None ->
            outcome (createBooking userId (Room.id room)) s
            = Ok {| BookingId.bookingId := bookingSeq s |})
      /\ (forall userId bookingId old bw,
            lookupRoom (Room.id room) s = Some room ->
            1 <= Room.id room -> 1 <= bookingId ->
            eligible userId s ->
            bookings s !! bookingId = Some old ->
            userBookingOf userId s = Some bw ->
            BookingWithRoom.id bw = bookingId ->
            Booking.row_roomId old <> Room.id room ->
            outcome (updateBooking userId bookingId (Room.id room)) s
            = Ok {| BookingId.bookingId := bookingId |})).
Proof.
  split.
  - eexists. split; [apply isRoomFull_run|]. apply Z.eqb_eq.
  - intros Hover.
    assert (Hne : countOnRoom (Room.id room) s <> Room.capacity room) by lia.
    split; [|split].
    + rewrite isRoomFull_run. apply Z.eqb_neq in Hne. by rewrite Hne.
    + intros userId Hroom Hid Hel Hnone Hfresh. unfold outcome.
      apply lookupRoom_Some in Hroom as (_ & r & Hr & Hcap).
      rewrite createBooking_pass, create_write_fresh; [done..|].
      unfold create_guards. rewrite <- Hcap in Hne. eauto 10.
    + intros userId bookingId old bw Hroom Hid Hbid Hel Hold Hbw Hown Hdiff.
      unfold outcome.
      apply lookupRoom_Some in Hroom as (_ & r & Hr & Hcap).
      rewrite updateBooking_pass, (update_write _ _ old); [done..|].
      unfold update_guards. rewrite <- Hcap in Hne. eauto 15.
Qed.

Lemma isRoomFull_exact_equality_witness :
  outcome (createBooking 1 6) overbooked = Ok {| BookingId.bookingId := 4 |}
  /\ outcome (updateBooking 4 3 6) overbooked = Ok {| BookingId.bookingId := 3 |}.
Proof.
  pose (room6 := {| Room.id := 6; Room.capacity := 1; Room.hotelId := 1 |}).
  destruct (isRoomFull_exact_equality room6 overbooked) as [_ Hover].
  destruct Hover as (_ & Hcreate & Hupdate); [by_running|].
  split.
  - apply (Hcreate 1); by_running.
  - apply (Hupdate 4 3 (newRow 4 5)
             {| BookingWithRoom.id := 3; BookingWithRoom.Room := lookupRoom 5 overbooked |});
      by_running.
Defined.

(** ** Fetching the current booking *)

(** C9. [getBooking]: a user the eligibility check refuses is denied; an
    eligible user without a booking gets NotFound; otherwise the result is
    [{ id, Room }] of a booking of the user, the room joined through the
    booking's [roomId] (present whenever the foreign key holds). The store
    is left as it was. *)
Theorem getBooking_behaviour (userId : Z) (s : Store) :
  (isUserAllowed userId s = (Ok false, s) ->
   getBooking userId s = (Throw ForbiddenError, s))
  /\ (eligible userId s -> countOfUser userId s = 0%nat ->
      getBooking userId s = (Throw NotFoundError, s))
  /\ (eligible userId s -> countOfUser userId s <> 0%nat ->
      exists k r,
        bookings s !! k = Some r
        /\ Booking.row_userId r = userId
        /\ getBooking userId s
           = (Ok {| BookingWithRoom.id := k;
                    BookingWithRoom.Room := lookupRoom (Booking.row_roomId r) s |}, s)
        /\ (fk_ok s -> exists room,
              lookupRoom (Booking.row_roomId r) s = Some room
              /\ Room.id room = Booking.row_roomId r)).
Proof.
  unfold getBooking, countOfUser. repeat split.
  - intros Hno. by step Hno.
  - intros Hel Hzero. step Hel. step (findWithRoomByUserId_run userId s).
    apply map_size_empty_iff, userBookingOf_None in Hzero. by rewrite Hzero.
  - intros Hel Hsome. step Hel. step (findWithRoomByUserId_run userId s).
    destruct (userBookingOf userId s) as [bw|] eqn:Hbw.
    2:{ apply userBookingOf_None, map_size_empty_iff in Hbw. contradiction. }
    destruct (userBookingOf_Some _ _ _ Hbw) as (r & Hk & Hu & Hroom).
    exists (BookingWithRoom.id bw), r. repeat split; [done..| |].
    + rewrite <- Hroom. by destruct bw.
    + intros Hfk. destruct (Hfk _ _ Hk) as [row Hrow].
      exists (Room.of_row (Booking.row_roomId r) row). split; [|done].
      unfold lookupRoom. by rewrite Hrow.
Qed.

Lemma getBooking_behaviour_witness :
  getBooking 5 demo = (Throw ForbiddenError, demo)
  /\ getBooking 1 demo = (Throw NotFoundError, demo)
  /\ exists k r,
       bookings demo !! k = Some r
       /\ Booking.row_userId r = 2
       /\ getBooking 2 demo
          = (Ok {| BookingWithRoom.id := k;
                   BookingWithRoom.Room := lookupRoom (Booking.row_roomId r) demo |}, demo)
       /\ exists room, lookupRoom (Booking.row_roomId r) demo = Some room
                       /\ Room.id room = Booking.row_roomId r.
Proof.
  split; [|split].
  - apply (getBooking_behaviour 5 demo). by_running.
  - apply (getBooking_behaviour 1 demo); by_running.
  - destruct (getBooking_behaviour 2 demo) as (_ & _ & Hfound).
    destruct Hfound as (k & r & Hk & Hu & Hget & Hroom); [by_running..|].
    exists k, r. repeat split; [done..|].
    apply Hroom. by_deciding.
Defined.

(** ** The user id is not validated *)

(** C10. No operation checks [userId]: whatever integer it is, it goes to
    the enrollment lookup, and when that finds no enrollment each of the
    three operations fails with AuthorizationDenied (the id checks on
    [roomId] and [bookingId] fail the same way), leaving the store as it
    was. *)
Theorem unknown_user_is_denied (userId bookingId roomId : Z) (s : Store) :
  enrollmentOf userId s = None ->
  getBooking userId s = (Throw ForbiddenError, s)
  /\ createBooking userId roomId s = (Throw ForbiddenError, s)
  /\ updateBooking userId bookingId roomId s = (Throw ForbiddenError, s).
Proof.
  intros Hno. apply not_enrolled_not_allowed in Hno.
  unfold getBooking, createBooking, updateBooking. repeat split.
  - by step Hno.
  - destruct (roomId <? 1); [done|]. by step Hno.
  - destruct ((roomId <? 1) || (bookingId <? 1)); [done|]. by step Hno.
Qed.

Lemma unknown_user_is_denied_witness :
  getBooking (-7) demo = (Throw ForbiddenError, demo)
  /\ createBooking (-7) 5 demo = (Throw ForbiddenError, demo)
  /\ updateBooking (-7) 1 6 demo = (Throw ForbiddenError, demo).
Proof. apply (unknown_user_is_denied (-7) 1 6 demo). reflexivity. Defined.

(** ** Failure is atomic: the one write comes last *)

Lemma create_write_cases userId roomId s :
  let write := bind (bookingRepository.createByUserIdAndRoomId userId roomId)
                 (fun createdBooking =>
                    ret {| BookingId.bookingId := Booking.id createdBooking |}) in
  (bookings s !! bookingSeq s = None
   /\ write s = (Ok {| BookingId.bookingId := bookingSeq s |},
                 bump_bookingSeq (set_bookings (insert (bookingSeq s) (newRow userId roomId)) s)))
  \/ write s = (Throw PrismaError, bump_bookingSeq s).
Proof.
  intros write. destruct (bookings s !! bookingSeq s) as [b|] eqn:Hk.
  - right. apply create_write_clash. eauto.
  - left. split; [done|]. by apply create_write_fresh.
Qed.

Lemma not_failed_Ok {A} (a : A) : ~ failed (Ok a).
Proof. intros (e & _ & [=]). Qed.

Lemma not_failed_PrismaError {A} : ~ failed (@Throw A PrismaError).
Proof. intros (e & [->| ->] & [=]). Qed.

(** C6. An operation that fails with AuthorizationDenied or NotFound leaves
    every table (and the id sequence) exactly as it found them; [getBooking]
    never writes at all; and a successful [createBooking] or [updateBooking]
    changes the store by its single write, done after every check. *)
Theorem failure_is_atomic (userId bookingId roomId : Z) (s : Store) :
  final (getBooking userId) s = s
  /\ (failed (outcome (createBooking userId roomId) s) ->
      final (createBooking userId roomId) s = s)
  /\ (failed (outcome (updateBooking userId bookingId roomId) s) ->
      final (updateBooking userId bookingId roomId) s = s)
  /\ (forall b, outcome (createBooking userId roomId) s = Ok b ->
      final (createBooking userId roomId) s
      = bump_bookingSeq (set_bookings (insert (bookingSeq s) (newRow userId roomId)) s))
  /\ (forall b, outcome (updateBooking userId bookingId roomId) s = Ok b ->
      exists old, bookings s !! bookingId = Some old
        /\ final (updateBooking userId bookingId roomId) s
           = set_bookings (insert bookingId (movedRow old roomId)) s).
Proof.
  unfold final, outcome. repeat split.
  - destruct (getBooking_cases userId s) as [(bw & _ & _ & ->)|(e & _ & ->)]; done.
  - destruct (createBooking_cases userId roomId s) as [[_ ->]|(e & _ & ->)]; [|done].
    destruct (create_write_cases userId roomId s) as [[_ ->]| ->]; simpl; intros Hf.
    + by apply not_failed_Ok in Hf.
    + by apply not_failed_PrismaError in Hf.
  - destruct (updateBooking_cases userId bookingId roomId s)
      as [[(_ & _ & _ & _ & old & Hold & _) ->]|(e & _ & ->)]; [|done].
    rewrite (update_write _ _ _ _ Hold). simpl. intros Hf.
    by apply not_failed_Ok in Hf.
  - intros b.
    destruct (createBooking_cases userId roomId s) as [[_ ->]|(e & _ & ->)]; [|done].
    destruct (create_write_cases userId roomId s) as [[_ ->]| ->]; done.
  - intros b.
    destruct (updateBooking_cases userId bookingId roomId s)
      as [[(_ & _ & _ & _ & old & Hold & _) ->]|(e & _ & ->)]; [|done].
    rewrite (update_write _ _ _ _ Hold). simpl. eauto.
Qed.

Lemma failure_is_atomic_witness :
  final (createBooking 2 5) demo = demo
  /\ final (updateBooking 1 1 99) demo = demo
  /\ final (createBooking 1 5) demo
     = bump_bookingSeq (set_bookings (insert 2 (newRow 1 5)) demo).
Proof.
  destruct (failure_is_atomic 2 1 5 demo) as (_ & Hcreate & _).
  destruct (failure_is_atomic 1 1 99 demo) as (_ & _ & Hupdate & _).
  destruct (failure_is_atomic 1 1 5 demo) as (_ & _ & _ & Hdone & _).
  split; [|split].
  - apply Hcreate. exists ForbiddenError. split; [by left | by_running].
  - apply Hupdate. exists NotFoundError. split; [by right | by_running].
  - apply (Hdone {| BookingId.bookingId := 2 |}). by_running.
Defined.

(** ** The invariants across a write *)

Lemma size_filter_insert_le (P : Z * Booking.row -> Prop) `{!forall kr, Decision (P kr)}
    (m : gmap Z Booking.row) k r :
  (size (filter P (<[k:=r]> m)) <= size (filter P m) + hit P (k, r))%nat.
Proof.
  rewrite size_filter_insert. destruct (m !! k) as [old|] eqn:Hk.
  - rewrite (size_filter_lookup P m k old Hk). lia.
  - rewrite delete_id by done. lia.
Qed.

Lemma countOnRoom_insert_other R k new s :
  Booking.row_roomId new <> R ->
  countOnRoom R (set_bookings (insert k new) s) <= countOnRoom R s.
Proof.
  intros Hne. unfold countOnRoom, bookingsOnRoomId. simpl.
  pose proof (size_filter_insert_le
    (fun kr : Z * Booking.row => Booking.row_roomId kr.2 = R) (bookings s) k new) as Hle.
  unfold hit in Hle. rewrite decide_False in Hle by done. lia.
Qed.

Lemma countOnRoom_insert_same k new s :
  countOnRoom (Booking.row_roomId new) (set_bookings (insert k new) s)
  <= countOnRoom (Booking.row_roomId new) s + 1.
Proof.
  unfold countOnRoom, bookingsOnRoomId. simpl.
  pose proof (size_filter_insert_le
    (fun kr : Z * Booking.row => Booking.row_roomId kr.2 = Booking.row_roomId new)
    (bookings s) k new) as Hle.
  unfold hit in Hle. rewrite decide_True in Hle by done. lia.
Qed.

Lemma capacity_ok_insert k new r s :
  capacity_ok s ->
  rooms s !! Booking.row_roomId new = Some r ->
  countOnRoom (Booking.row_roomId new) s <> Room.row_capacity r ->
  capacity_ok (set_bookings (insert k new) s).
Proof.
  intros Hcap Hroom Hne R rR HR. simpl in HR.
  pose proof (Hcap R rR HR) as HleR. simpl in HleR.
  destruct (decide (Booking.row_roomId new = R)) as [<-|Hother].
  - rewrite Hroom in HR. injection HR as <-.
    pose proof (countOnRoom_insert_same k new s). lia.
  - pose proof (countOnRoom_insert_other R k new s Hother). lia.
Qed.

Lemma capacity_ok_bump s : capacity_ok s -> capacity_ok (bump_bookingSeq s).
Proof. intros Hcap. exact Hcap. Qed.

(** C1. Capacity invariant I2 holds again after any single run of
    [getBooking], [createBooking] or [updateBooking], whatever its outcome,
    from a store in which it holds. *)
Theorem capacity_invariant_preserved (userId bookingId roomId : Z) (s : Store) :
  capacity_ok s ->
  capacity_ok (final (getBooking userId) s)
  /\ capacity_ok (final (createBooking userId roomId) s)
  /\ capacity_ok (final (updateBooking userId bookingId roomId) s).
Proof.
  intros Hcap. unfold final. repeat split.
  - destruct (getBooking_cases userId s) as [(bw & _ & _ & ->)|(e & _ & ->)]; done.
  - destruct (createBooking_cases userId roomId s)
      as [[(_ & _ & _ & r & Hroom & Hne) ->]|(e & _ & ->)]; [|done].
    destruct (create_write_cases userId roomId s) as [[_ ->]| ->]; simpl snd.
    + apply capacity_ok_bump. by apply (capacity_ok_insert _ _ r).
    + by apply capacity_ok_bump.
  - destruct (updateBooking_cases userId bookingId roomId s)
      as [[(_ & _ & _ & (r & Hroom & Hne) & old & Hold & _) ->]|(e & _ & ->)]; [|done].
    rewrite (update_write _ _ _ _ Hold). simpl snd.
    by apply (capacity_ok_insert _ _ r).
Qed.

Lemma capacity_invariant_preserved_witness :
  capacity_ok demo
  /\ capacity_ok (final (getBooking 2) demo)
  /\ capacity_ok (final (createBooking 1 6) demo)
  /\ capacity_ok (final (updateBooking 2 1 6) demo).
Proof.
  assert (Hdemo : capacity_ok demo) by by_deciding.
  destruct (capacity_invariant_preserved 1 1 6 demo Hdemo) as (_ & Hcreate & _).
  destruct (capacity_invariant_preserved 2 1 6 demo Hdemo) as (Hget & _ & Hupdate).
  auto.
Defined.

(** ** One booking per user *)

Lemma two_rows_count_two (P : Z * Booking.row -> Prop) `{!forall kr, Decision (P kr)}
    (m : gmap Z Booking.row) k b k' b' :
  m !! k = Some b -> m !! k' = Some b' -> k <> k' -> P (k, b) -> P (k', b') ->
  (2 <= size (filter P m))%nat.
Proof.
  intros Hk Hk' Hne HP HP'.
  rewrite (size_filter_lookup P m k b Hk).
  assert (Hk'' : delete k m !! k' = Some b') by by rewrite lookup_delete_ne.
  rewrite (size_filter_lookup P _ k' b' Hk'').
  unfold hit. rewrite !decide_True by done. lia.
Qed.

Lemma single_booking_rows s : single_booking s <-> one_row_per_user (bookings s).
Proof.
  split.
  - intros Hone k b Hk k' b' Hk' Hu.
    destruct (decide (k = k')) as [|Hne]; [done|].
    specialize (Hone (Booking.row_userId b)).
    pose proof (two_rows_count_two
      (fun kr : Z * Booking.row => Booking.row_userId kr.2 = Booking.row_userId b)
      (bookings s) k b k' b' Hk Hk' Hne eq_refl (eq_sym Hu)) as Htwo.
    unfold countOfUser, bookingsOfUser in Hone. lia.
  - intros Hrows u. unfold countOfUser.
    destruct (map_choose_or_empty (bookingsOfUser u s)) as [(k & b & Hkb)| ->].
    2:{ rewrite map_size_empty. lia. }
    unfold bookingsOfUser in *.
    pose proof Hkb as Hin. apply map_lookup_filter_Some in Hin as [Hk Hu]. simpl in Hu.
    rewrite (size_filter_lookup _ _ k b Hk).
    assert (Hrest : filter (fun kr : Z * Booking.row => Booking.row_userId kr.2 = u)
                      (delete k (bookings s)) = ∅).
    { apply map_empty. intros k'. apply map_lookup_filter_None. right.
      intros b' Hk' Hu'. simpl in Hu'.
      apply lookup_delete_Some in Hk' as [Hne Hk'].
      apply Hne. apply (Hrows k b Hk k' b' Hk'). congruence. }
    rewrite Hrest, map_size_empty. unfold hit. case_decide; lia.
Qed.

Lemma single_booking_insert_new userId roomId k s :
  single_booking s ->
  userBookingOf userId s = None ->
  single_booking (set_bookings (insert k (newRow userId roomId)) s).
Proof.
  intros Hone Hnone u. unfold countOfUser, bookingsOfUser. simpl.
  pose proof (size_filter_insert_le
    (fun kr : Z * Booking.row => Booking.row_userId kr.2 = u)
    (bookings s) k (newRow userId roomId)) as Hle.
  unfold hit in Hle. case_decide as Hu; simpl in Hu.
  - subst u. apply userBookingOf_None in Hnone.
    unfold bookingsOfUser in Hnone. rewrite Hnone, map_size_empty in Hle. lia.
  - specialize (Hone u). unfold countOfUser, bookingsOfUser in Hone. lia.
Qed.

Lemma countOfUser_move u k old roomId s :
  bookings s !! k = Some old ->
  countOfUser u (set_bookings (insert k (movedRow old roomId)) s) = countOfUser u s.
Proof.
  intros Hk. unfold countOfUser, bookingsOfUser. simpl.
  pose proof (size_filter_replace
    (fun kr : Z * Booking.row => Booking.row_userId kr.2 = u)
    (bookings s) k old (movedRow old roomId) Hk) as Heq.
  unfold hit in Heq. simpl in Heq.
  destruct (decide (Booking.row_userId old = u)); lia.
Qed.

(** C7. Single-booking invariant I1 holds again after any single run of
    [getBooking], [createBooking] or [updateBooking], whatever its outcome,
    from a store in which it holds: [createBooking] refuses a user who has
    a booking, and [updateBooking] keeps the number of rows of every user. *)
Theorem single_booking_preserved (userId bookingId roomId : Z) (s : Store) :
  single_booking s ->
  single_booking (final (getBooking userId) s)
  /\ single_booking (final (createBooking userId roomId) s)
  /\ single_booking (final (updateBooking userId bookingId roomId) s)
  /\ (userBookingOf userId s <> None ->
      outcome (createBooking userId roomId) s = Throw ForbiddenError)
  /\ (forall u, countOfUser u (final (updateBooking userId bookingId roomId) s)
                = countOfUser u s).
Proof.
  intros Hone. unfold final, outcome. repeat split.
  - destruct (getBooking_cases userId s) as [(bw & _ & _ & ->)|(e & _ & ->)]; done.
  - destruct (createBooking_cases userId roomId s)
      as [[(_ & _ & Hnone & _) ->]|(e & _ & ->)]; [|done].
    destruct (create_write_cases userId roomId s) as [[_ ->]| ->]; simpl snd.
    + by apply (single_booking_insert_new userId roomId (bookingSeq s) s).
    + done.
  - destruct (updateBooking_cases userId bookingId roomId s)
      as [[(_ & _ & _ & _ & old & Hold & _) ->]|(e & _ & ->)]; [|done].
    rewrite (update_write _ _ _ _ Hold). simpl snd.
    intros u. rewrite countOfUser_move by done. apply Hone.
  - intros Hsome. unfold createBooking.
    destruct (roomId <? 1); [done|].
    destruct (isUserAllowed_total userId s) as [[] Hb]; step Hb; [|done].
    step (findWithRoomByUserId_run userId s).
    by destruct (userBookingOf userId s).
  - intros u.
    destruct (updateBooking_cases userId bookingId roomId s)
      as [[(_ & _ & _ & _ & old & Hold & _) ->]|(e & _ & ->)]; [|done].
    rewrite (update_write _ _ _ _ Hold). simpl snd. by apply countOfUser_move.
Qed.

Lemma single_booking_preserved_witness :
  single_booking demo
  /\ single_booking (final (getBooking 2) demo)
  /\ single_booking (final (createBooking 1 6) demo)
  /\ single_booking (final (updateBooking 2 1 6) demo)
  /\ outcome (createBooking 2 6) demo = Throw ForbiddenError.
Proof.
  assert (Hdemo : single_booking demo) by (apply single_booking_rows; by_deciding).
  destruct (single_booking_preserved 1 1 6 demo Hdemo) as (_ & Hcreate & _).
  destruct (single_booking_preserved 2 1 6 demo Hdemo)
    as (Hget & _ & Hupdate & Hrefuse & _).
  split; [exact Hdemo|]. split; [exact Hget|]. split; [exact Hcreate|].
  split; [exact Hupdate|]. apply Hrefuse. by_running.
Defined.

(** ** The schema's integrity constraints across a run *)

Lemma store_ok_insert k new s :
  store_ok s -> 1 <= k -> k < bookingSeq s ->
  is_Some (rooms s !! Booking.row_roomId new) ->
  store_ok (set_bookings (insert k new) s).
Proof.
  intros ((Hrooms & Hbook) & (Hone & Hseq) & Hfk) Hk Hlt Hroom.
  unfold store_ok, ids_ok, seq_ok, fk_ok. simpl.
  repeat split; [done| |done| |]; by apply map_Forall_insert_2.
Qed.

Lemma store_ok_bump s : store_ok s -> store_ok (bump_bookingSeq s).
Proof.
  intros (Hids & (Hone & Hseq) & Hfk).
  unfold store_ok, ids_ok, seq_ok, fk_ok in *. simpl.
  repeat split; [tauto|tauto|lia| |done].
  eapply map_Forall_impl; [exact Hseq|]. simpl. intros. lia.
Qed.

Lemma store_ok_create userId roomId s :
  store_ok s -> is_Some (rooms s !! roomId) ->
  store_ok (bump_bookingSeq (set_bookings (insert (bookingSeq s) (newRow userId roomId)) s)).
Proof.
  intros ((Hrooms & Hbook) & (Hone & Hseq) & Hfk) Hroom.
  unfold store_ok, ids_ok, seq_ok, fk_ok. simpl.
  repeat split; [done| |lia| |].
  - by apply map_Forall_insert_2.
  - apply map_Forall_insert_2; [lia|].
    eapply map_Forall_impl; [exact Hseq|]. simpl. intros. lia.
  - by apply map_Forall_insert_2.
Qed.

(** The integrity constraints are an invariant of the three operations. *)
Lemma store_ok_preserved userId bookingId roomId s :
  store_ok s ->
  store_ok (final (getBooking userId) s)
  /\ store_ok (final (createBooking userId roomId) s)
  /\ store_ok (final (updateBooking userId bookingId roomId) s).
Proof.
  intros Hok. unfold final. split; [|split].
  - destruct (getBooking_cases userId s) as [(bw & _ & _ & ->)|(e & _ & ->)]; done.
  - destruct (createBooking_cases userId roomId s)
      as [[(_ & _ & _ & r & Hroom & _) ->]|(e & _ & ->)]; [|done].
    destruct (create_write_cases userId roomId s) as [[_ ->]| ->]; simpl snd.
    + apply store_ok_create; eauto.
    + by apply store_ok_bump.
  - destruct (updateBooking_cases userId bookingId roomId s)
      as [[(_ & Hb & _ & (r & Hroom & _) & old & Hold & _) ->]|(e & _ & ->)];
      [|exact Hok].
    rewrite (update_write _ _ _ _ Hold). simpl snd.
    apply store_ok_insert; [exact Hok|exact Hb| |simpl; eauto].
    destruct Hok as (_ & (_ & Hseq) & _). by apply (Hseq bookingId old).
Qed.

(** ** Creating a booking *)

Lemma countOfUser_zero userId s :
  countOfUser userId s = 0%nat <-> userBookingOf userId s = None.
Proof.
  unfold countOfUser. rewrite map_size_empty_iff. symmetry. apply userBookingOf_None.
Qed.

(** C3. In a store that meets the schema's integrity constraints, an
    eligible user without a booking who asks for an existing room with fewer
    bookings than its capacity gets a booking: the call succeeds and returns
    the id of a row that was not there before; afterwards that row binds the
    user to the room, it is the user's only row, and every other id holds
    what it held before. *)
Theorem createBooking_success (userId roomId : Z) (r : Room.row) (s : Store) :
  store_ok s ->
  eligible userId s ->
  countOfUser userId s = 0%nat ->
  rooms s !! roomId = Some r ->
  countOnRoom roomId s < Room.row_capacity r ->
  let k := bookingSeq s in
  let s' := final (createBooking userId roomId) s in
  outcome (createBooking userId roomId) s = Ok {| BookingId.bookingId := k |}
  /\ bookings s !! k = None
  /\ bookings s' !! k = Some (newRow userId roomId)
  /\ countOfUser userId s' = 1%nat
  /\ (forall k' b, bookings s' !! k' = Some b -> Booking.row_userId b = userId ->
                   k' = k /\ Booking.row_roomId b = roomId)
  /\ (forall k' b, bookings s !! k' = Some b -> bookings s' !! k' = Some b)
  /\ (forall k', k' <> k -> bookings s' !! k' = bookings s !! k').
Proof.
  intros ((Hrooms & _) & Hseq & _) Hel Hzero Hroom Hfree k s'.
  pose proof (seq_ok_fresh s Hseq) as Hfresh.
  pose proof (proj1 (countOfUser_zero userId s) Hzero) as Hnone.
  assert (Hguards : create_guards userId roomId s).
  { unfold create_guards. repeat split; [by apply (Hrooms roomId r)|done..|].
    exists r. split; [done|lia]. }
  assert (Hrun : createBooking userId roomId s
                 = (Ok {| BookingId.bookingId := k |},
                    bump_bookingSeq (set_bookings (insert k (newRow userId roomId)) s))).
  { rewrite (createBooking_pass _ _ _ Hguards). by apply create_write_fresh. }
  subst s'. unfold outcome, final. rewrite Hrun. simpl.
  split; [done|]. split; [done|]. split; [apply lookup_insert_eq|].
  split; [|split; [|split]].
  - pose proof (size_filter_fresh
      (fun kr : Z * Booking.row => Booking.row_userId kr.2 = userId)
      (bookings s) k (newRow userId roomId) Hfresh) as Hcount.
    unfold countOfUser, bookingsOfUser in *. simpl. rewrite Hcount, Hzero.
    unfold hit. by rewrite decide_True.
  - intros k' b Hk' Hu. apply lookup_insert_Some in Hk' as [[<- <-]|[Hne Hk']]; [done|].
    apply userBookingOf_None in Hnone.
    pose proof (proj1 (bookingsOfUser_empty userId s) Hnone k' b Hk'). contradiction.
  - intros k' b Hk'. rewrite lookup_insert_ne; [done|].
    intros Heq. subst k'. unfold k in Hk'. congruence.
  - intros k' Hne. by rewrite lookup_insert_ne.
Qed.

Lemma createBooking_success_witness :
  outcome (createBooking 1 5) demo = Ok {| BookingId.bookingId := 2 |}
  /\ bookings demo !! 2 = None
  /\ bookings (final (createBooking 1 5) demo) !! 2 = Some (newRow 1 5)
  /\ countOfUser 1 (final (createBooking 1 5) demo) = 1%nat.
Proof.
  destruct (createBooking_success 1 5 {| Room.row_capacity := 2; Room.row_hotelId := 1 |} demo)
    as (Hout & Hnew & Hrow & Hcount & _);
    [by_deciding | by_running | by_running | by_running | by_running |].
  auto.
Defined.

(** ** Moving a booking *)

(** C2, amended to what the code does. Asking to move an existing booking that is not
    one's own never succeeds and changes nothing. The answer is
    AuthorizationDenied when an id is below 1, when the user is not
    eligible, or when the target room exists (full or not); an eligible
    user naming a room that does not exist gets NotFound, because both
    lookups are checked before ownership. *)
Theorem updateBooking_not_owner (userId bookingId roomId : Z) (old : Booking.row) (s : Store) :
  bookings s !! bookingId = Some old ->
  Booking.row_userId old <> userId ->
  final (updateBooking userId bookingId roomId) s = s
  /\ (roomId < 1 \/ bookingId < 1 \/ ~ eligible userId s \/ is_Some (rooms s !! roomId) ->
      outcome (updateBooking userId bookingId roomId) s = Throw ForbiddenError)
  /\ (1 <= roomId -> 1 <= bookingId -> eligible userId s -> rooms s !! roomId = None ->
      outcome (updateBooking userId bookingId roomId) s = Throw NotFoundError).
Proof.
  intros Hold Hother. unfold final, outcome, updateBooking.
  destruct (Z.ltb_spec roomId 1) as [Hr|Hr]; [split; [done|split; [done|lia]]|].
  destruct (Z.ltb_spec bookingId 1) as [Hb|Hb]; [split; [done|split; [done|lia]]|].
  cbn [orb]; cbv iota.
  destruct (isUserAllowed_total userId s) as [[] Hel]; step Hel.
  2:{ split; [done|split; [done|]]. unfold eligible. congruence. }
  step (findRoomById_run roomId s). step (findById_run bookingId s).
  unfold lookupRoom. rewrite Hold.
  destruct (rooms s !! roomId) as [r|] eqn:Hroom.
  2:{ split; [done|split; [|done]]. intros [?|[?|[Hno|[? [=]]]]]; [lia..|]. by destruct Hno. }
  change (Room.of_row roomId <$> Some r) with (Some (Room.of_row roomId r)).
  change (Booking.of_row bookingId <$> Some old) with (Some (Booking.of_row bookingId old)).
  cbv iota. step (findWithRoomByUserId_run userId s).
  destruct (userBookingOf userId s) as [bw|] eqn:Hbw; [|by cbn [negb]].
  destruct (userBookingOf_Some _ _ _ Hbw) as (mine & Hmine & Hu & _).
  destruct (Z.eqb_spec (BookingWithRoom.id bw) bookingId) as [Heq|Hne]; [|by cbn [negb]].
  rewrite Heq, Hold in Hmine. injection Hmine as <-. contradiction.
Qed.

Lemma updateBooking_not_owner_witness :
  final (updateBooking 1 1 6) demo = demo
  /\ outcome (updateBooking 1 1 6) demo = Throw ForbiddenError
  /\ outcome (updateBooking 1 1 99) demo = Throw NotFoundError.
Proof.
  destruct (updateBooking_not_owner 1 1 6 (newRow 2 5) demo) as (Hsame & Hdenied & _);
    [by_running..|].
  destruct (updateBooking_not_owner 1 1 99 (newRow 2 5) demo) as (_ & _ & Hmissing);
    [by_running..|].
  split; [exact Hsame|]. split.
  - apply Hdenied. right. right. right. exists {| Room.row_capacity := 1; Room.row_hotelId := 1 |}.
    by_running.
  - apply Hmissing; by_running.
Defined.

(** C2 as stated fails: in [demo] user 1 is eligible, booking 1
    exists and belongs to user 2, and no room has id 99; the answer to
    [updateBooking 1 1 99] is NotFound, not AuthorizationDenied. *)
Lemma updateBooking_not_owner_missing_room :
  bookings demo !! 1 = Some (newRow 2 5)
  /\ Booking.row_userId (newRow 2 5) <> 1
  /\ updateBooking 1 1 99 demo = (Throw NotFoundError, demo)
  /\ ~ (forall (userId bookingId roomId : Z) (old : Booking.row) (s : Store),
         bookings s !! bookingId = Some old ->
         Booking.row_userId old <> userId ->
         outcome (updateBooking userId bookingId roomId) s = Throw ForbiddenError).
Proof.
  assert (Hrun : updateBooking 1 1 99 demo = (Throw NotFoundError, demo)) by by_running.
  split; [by_running|]. split; [by_running|]. split; [exact Hrun|].
  intros Hall.
  assert (Hdenied : outcome (updateBooking 1 1 99) demo = Throw ForbiddenError).
  { apply (Hall 1 1 99 (newRow 2 5) demo); by_running. }
  unfold outcome in Hdenied. rewrite Hrun in Hdenied. discriminate Hdenied.
Qed.

(** C8. In a store whose foreign keys hold, asking to move an existing
    booking to the room it already has is denied, whoever asks, and changes
    nothing. *)
Theorem updateBooking_same_room (userId bookingId : Z) (old : Booking.row) (s : Store) :
  fk_ok s ->
  bookings s !! bookingId = Some old ->
  updateBooking userId bookingId (Booking.row_roomId old) s = (Throw ForbiddenError, s).
Proof.
  intros Hfk Hold. destruct (Hfk _ _ Hold) as [r Hroom]. unfold updateBooking.
  destruct ((Booking.row_roomId old <? 1) || (bookingId <? 1)); [done|].
  destruct (isUserAllowed_total userId s) as [[] Hel]; step Hel; [|done].
  step (findRoomById_run (Booking.row_roomId old) s). step (findById_run bookingId s).
  unfold lookupRoom. rewrite Hold, Hroom.
  change (Room.of_row (Booking.row_roomId old) <$> Some r)
    with (Some (Room.of_row (Booking.row_roomId old) r)).
  change (Booking.of_row bookingId <$> Some old) with (Some (Booking.of_row bookingId old)).
  cbv iota. step (findWithRoomByUserId_run userId s).
  destruct (negb _); [done|].
  cbn [Booking.roomId Booking.of_row]. by rewrite Z.eqb_refl.
Qed.

Lemma updateBooking_same_room_witness :
  updateBooking 2 1 5 demo = (Throw ForbiddenError, demo).
Proof.
  apply (updateBooking_same_room 2 1 (newRow 2 5) demo); [by_deciding | by_running].
Defined.

(** ** Scenarios of the test suite, run in sequence *)

(** User 1 books room 6, which takes one guest; user 3 then finds it full,
    and user 1 cannot book a second room. *)
Example room_6_fills_up :
  let s1 := final (createBooking 1 6) demo in
  outcome (createBooking 1 6) demo = Ok {| BookingId.bookingId := 2 |}
  /\ createBooking 3 6 s1 = (Throw ForbiddenError, s1)
  /\ createBooking 1 5 s1 = (Throw ForbiddenError, s1)
  /\ outcome (getBooking 1) s1
     = Ok {| BookingWithRoom.id := 2;
             BookingWithRoom.Room :=
               Some {| Room.id := 6; Room.capacity := 1; Room.hotelId := 1 |} |}.
Proof. vm_compute. repeat split; reflexivity. Qed.

(** User 2 moves booking 1 from room 5 to room 6: the row keeps its id and
    its user. Ids below 1 are denied, a missing room or booking is NotFound. *)
Example user_2_moves_to_room_6 :
  let s1 := final (updateBooking 2 1 6) demo in
  outcome (updateBooking 2 1 6) demo = Ok {| BookingId.bookingId := 1 |}
  /\ bookings s1 !! 1 = Some (newRow 2 6)
  /\ bookingSeq s1 = bookingSeq demo
  /\ outcome (updateBooking 2 1 0) demo = Throw ForbiddenError
  /\ outcome (updateBooking 2 0 6) demo = Throw ForbiddenError
  /\ outcome (updateBooking 2 1 7) demo = Throw NotFoundError
  /\ outcome (updateBooking 2 2 6) demo = Throw NotFoundError
  /\ outcome (createBooking 1 0) demo = Throw ForbiddenError
  /\ outcome (createBooking 1 7) demo = Throw NotFoundError.
Proof. vm_compute. repeat split; reflexivity. Qed.

(** A ticket that is reserved but not paid, or remote, does not make its
    holder eligible. *)
Example unpaid_or_remote_is_not_allowed :
  let unpaid := {| enrollments := enrollments demo;
                   tickets := [ hotelTicket 10 RESERVED ];
                   rooms := rooms demo; bookings := bookings demo;
                   bookingSeq := bookingSeq demo |} in
  let remote := {| enrollments := enrollments demo;
                   tickets := [ {| Ticket.enrollmentId := 10; Ticket.status := PAID;
                                   Ticket.TicketType :=
                                     {| TicketType.isRemote := true;
                                        TicketType.includesHotel := false |} |} ];
                   rooms := rooms demo; bookings := bookings demo;
                   bookingSeq := bookingSeq demo |} in
  outcome (isUserAllowed 1) unpaid = Ok false
  /\ outcome (isUserAllowed 1) remote = Ok false
  /\ outcome (isUserAllowed 2) unpaid = Ok false
  /\ outcome (getBooking 1) unpaid = Throw ForbiddenError.
Proof. vm_compute. repeat split; reflexivity. Qed.

(** * The rest of the service, the repository and the handlers *)

(** ** Which answer a request gets *)

#[local] Set Warnings "-clear-no-such-hyp".

Lemma eligible_dec userId s :
  (eligible userId s /\ isUserAllowed userId s <> (Ok false, s))
  \/ (~ eligible userId s /\ isUserAllowed userId s = (Ok false, s)).
Proof.
  unfold eligible. destruct (isUserAllowed_total userId s) as [[] Hb]; rewrite Hb.
  - left. split; [done|]. intros [=].
  - right. split; [|done]. intros [=].
Qed.

(** The run of [createBooking] with its reads resolved, check by check. *)
Lemma createBooking_run userId roomId s :
  createBooking userId roomId s =
  if roomId <? 1 then (Throw ForbiddenError, s) else
  match isUserAllowed userId s with
  | (Ok true, _) =>
      match userBookingOf userId s, rooms s !! roomId with
      | Some _, _ => (Throw ForbiddenError, s)
      | None, None => (Throw NotFoundError, s)
      | None, Some r =>
          if countOnRoom roomId s =? Room.row_capacity r then (Throw ForbiddenError, s)
          else bind (bookingRepository.createByUserIdAndRoomId userId roomId)
                 (fun createdBooking =>
                    ret {| BookingId.bookingId := Booking.id createdBooking |}) s
      end
  | _ => (Throw ForbiddenError, s)
  end.
Proof.
  unfold createBooking. destruct (roomId <? 1); [done|].
  destruct (isUserAllowed_total userId s) as [[] Hb]; step Hb; rewrite Hb; [|done].
  step (findWithRoomByUserId_run userId s).
  destruct (userBookingOf userId s); [done|].
  step (findRoomById_run roomId s). unfold lookupRoom.
  destruct (rooms s !! roomId) as [r|]; [|done].
  change (Room.of_row roomId <$> Some r) with (Some (Room.of_row roomId r)). cbv iota.
  step (isRoomFull_run (Room.of_row roomId r) s). cbn [Room.id Room.capacity Room.of_row].
  by destruct (countOnRoom roomId s =? Room.row_capacity r).
Qed.

(** The run of [updateBooking] with its reads resolved, check by check. *)
Lemma updateBooking_run userId bookingId roomId s :
  updateBooking userId bookingId roomId s =
  if (roomId <? 1) || (bookingId <? 1) then (Throw ForbiddenError, s) else
  match isUserAllowed userId s with
  | (Ok true, _) =>
      match rooms s !! roomId, bookings s !! bookingId with
      | Some r, Some old =>
          match userBookingOf userId s with
          | None => (Throw ForbiddenError, s)
          | Some bw =>
              if negb (BookingWithRoom.id bw =? bookingId) then (Throw ForbiddenError, s)
              else if Booking.row_roomId old =? roomId then (Throw ForbiddenError, s)
              else if countOnRoom roomId s =? Room.row_capacity r
                   then (Throw ForbiddenError, s)
              else (Ok {| BookingId.bookingId := bookingId |},
                    set_bookings (insert bookingId (movedRow old roomId)) s)
          end
      | _, _ => (Throw NotFoundError, s)
      end
  | _ => (Throw ForbiddenError, s)
  end.
Proof.
  unfold updateBooking. destruct ((roomId <? 1) || (bookingId <? 1)); [done|].
  destruct (isUserAllowed_total userId s) as [[] Hb]; step Hb; rewrite Hb; [|done].
  step (findRoomById_run roomId s). step (findById_run bookingId s). unfold lookupRoom.
  destruct (rooms s !! roomId) as [r|]; [|by destruct (bookings s !! bookingId)].
  destruct (bookings s !! bookingId) as [old|] eqn:Hold; [|done].
  change (Room.of_row roomId <$> Some r) with (Some (Room.of_row roomId r)).
  change (Booking.of_row bookingId <$> Some old) with (Some (Booking.of_row bookingId old)).
  cbv iota. step (findWithRoomByUserId_run userId s).
  destruct (userBookingOf userId s) as [bw|]; [|done].
  destruct (BookingWithRoom.id bw =? bookingId); cbn [negb]; cbv iota; [|done].
  cbn [Booking.roomId Booking.of_row].
  destruct (Booking.row_roomId old =? roomId); [done|].
  step (isRoomFull_run (Room.of_row roomId r) s). cbn [Room.id Room.capacity Room.of_row].
  destruct (countOnRoom roomId s =? Room.row_capacity r); [done|].
  by rewrite (update_write _ _ _ _ Hold).
Qed.

(** X1. Which error [createBooking] answers with, as a function of the
    store: AuthorizationDenied exactly when the room id is below 1, or the
    user is not eligible, or they hold a booking, or the room exists and
    holds exactly [capacity] bookings; NotFound exactly when none of the
    first three holds and the room does not exist. Either way the store is
    left as it was. *)
Theorem createBooking_errors (userId roomId : Z) (s : Store) :
  (outcome (createBooking userId roomId) s = Throw ForbiddenError <->
   roomId < 1 \/ ~ eligible userId s \/ userBookingOf userId s <> None
   \/ exists r, rooms s !! roomId = Some r /\ countOnRoom roomId s = Room.row_capacity r)
  /\ (outcome (createBooking userId roomId) s = Throw NotFoundError <->
      1 <= roomId /\ eligible userId s /\ userBookingOf userId s = None
      /\ rooms s !! roomId = None)
  /\ (failed (outcome (createBooking userId roomId) s) <-> ~ create_guards userId roomId s).
Proof.
  unfold outcome, create_guards. rewrite createBooking_run.
  destruct (Z.ltb_spec roomId 1) as [Hr|Hr].
  { unfold failed, domain_error. simpl. repeat split; naive_solver lia. }
  destruct (eligible_dec userId s) as [[Hel _]|[Hno Hrun]].
  2:{ rewrite Hrun. unfold failed, domain_error. simpl. repeat split; naive_solver. }
  rewrite Hel.
  destruct (userBookingOf userId s) as [bw|] eqn:Hbw.
  { unfold failed, domain_error. simpl. repeat split; naive_solver. }
  destruct (rooms s !! roomId) as [r|] eqn:Hroom.
  2:{ unfold failed, domain_error. simpl. repeat split; naive_solver lia. }
  destruct (Z.eqb_spec (countOnRoom roomId s) (Room.row_capacity r)) as [Hfull|Hfree].
  { unfold failed, domain_error. simpl. repeat split; naive_solver. }
  destruct (create_write_cases userId roomId s) as [[_ ->]| ->];
    unfold failed, domain_error; simpl.
  all: repeat split; naive_solver lia.
Qed.


(** ** Eligibility does not depend on the bookings *)

(** The answer of the eligibility check, as a function of the two tables
    it reads. *)
Lemma isUserAllowed_reads userId s1 s2 :
  enrollments s1 = enrollments s2 -> tickets s1 = tickets s2 ->
  forall b, isUserAllowed userId s1 = (Ok b, s1) -> isUserAllowed userId s2 = (Ok b, s2).
Proof.
  intros He Ht b. unfold isUserAllowed, bind,
    enrollmentRepository.findWithAddressByUserId,
    ticketRepository.findTicketByEnrollmentId, gets, ret, enrollmentOf, ticketOf.
  cbv beta. rewrite He.
  destruct (List.find _ (enrollments s2)) as [e|]; [|by intros [= <-]].
  cbv beta iota. rewrite Ht.
  destruct (List.find _ (tickets s2)) as [t|]; [|by intros [= <-]].
  destruct (negb _); by intros [= <-].
Qed.

Lemma eligible_set_bookings userId f s :
  eligible userId s -> eligible userId (set_bookings f s).
Proof. by apply isUserAllowed_reads. Qed.

Lemma eligible_bump userId s :
  eligible userId s -> eligible userId (bump_bookingSeq s).
Proof. by apply isUserAllowed_reads. Qed.

(** X3. A user the eligibility check refuses (no enrollment, no ticket, a
    remote ticket, a ticket without hotel, or one that is not PAID) is
    denied by all three operations, whatever the room and booking ids, and
    nothing is written. *)
Theorem ineligible_user_is_denied (userId bookingId roomId : Z) (s : Store) :
  ~ eligible userId s ->
  getBooking userId s = (Throw ForbiddenError, s)
  /\ createBooking userId roomId s = (Throw ForbiddenError, s)
  /\ updateBooking userId bookingId roomId s = (Throw ForbiddenError, s).
Proof.
  intros Hno. destruct (eligible_dec userId s) as [[Hel _]|[_ Hrun]]; [contradiction|].
  unfold getBooking, createBooking, updateBooking. repeat split.
  - by step Hrun.
  - destruct (roomId <? 1); [done|]. by step Hrun.
  - destruct ((roomId <? 1) || (bookingId <? 1)); [done|]. by step Hrun.
Qed.

Lemma ineligible_user_is_denied_witness :
  let unpaid := {| enrollments := enrollments demo;
                   tickets := [ hotelTicket 20 RESERVED ];
                   rooms := rooms demo; bookings := bookings demo;
                   bookingSeq := bookingSeq demo |} in
  getBooking 2 unpaid = (Throw ForbiddenError, unpaid)
  /\ createBooking 2 6 unpaid = (Throw ForbiddenError, unpaid)
  /\ updateBooking 2 1 6 unpaid = (Throw ForbiddenError, unpaid).
Proof.
  intros unpaid. apply (ineligible_user_is_denied 2 1 6 unpaid).
  unfold eligible. vm_compute. congruence.
Defined.

(** ** Moving a booking, when it goes through *)

Lemma countOnRoom_replace R k old new s :
  bookings s !! k = Some old ->
  countOnRoom R (set_bookings (insert k new) s)
  = countOnRoom R s
    - (if decide (Booking.row_roomId old = R) then 1 else 0)
    + (if decide (Booking.row_roomId new = R) then 1 else 0).
Proof.
  intros Hk. unfold countOnRoom, bookingsOnRoomId. simpl.
  pose proof (size_filter_replace
    (fun kr : Z * Booking.row => Booking.row_roomId kr.2 = R) (bookings s) k old new Hk) as Heq.
  unfold hit in Heq. simpl in Heq.
  destruct (decide (Booking.row_roomId old = R)), (decide (Booking.row_roomId new = R)); lia.
Qed.

(** X4. A move that passes every check returns the [bookingId] it was given
    and rewrites that one row: same id, same user, the new room. No row is
    added or removed, every other row and the id sequence stay as they were,
    the new room counts one booking more and the old room one less. *)
Theorem updateBooking_success (userId bookingId roomId : Z) (old : Booking.row) (s : Store) :
  update_guards userId bookingId roomId s ->
  bookings s !! bookingId = Some old ->
  let s' := final (updateBooking userId bookingId roomId) s in
  outcome (updateBooking userId bookingId roomId) s = Ok {| BookingId.bookingId := bookingId |}
  /\ bookings s' !! bookingId
     = Some {| Booking.row_userId := Booking.row_userId old; Booking.row_roomId := roomId |}
  /\ (forall k, k <> bookingId -> bookings s' !! k = bookings s !! k)
  /\ dom (bookings s') = dom (bookings s)
  /\ bookingSeq s' = bookingSeq s
  /\ countOnRoom roomId s' = countOnRoom roomId s + 1
  /\ countOnRoom (Booking.row_roomId old) s' = countOnRoom (Booking.row_roomId old) s - 1
  /\ (forall R, R <> roomId -> R <> Booking.row_roomId old ->
                countOnRoom R s' = countOnRoom R s).
Proof.
  intros Hguards Hold s'.
  assert (Hdiff : Booking.row_roomId old <> roomId).
  { destruct Hguards as (_ & _ & _ & _ & old' & Hold' & _ & Hne). congruence. }
  assert (Hrun : updateBooking userId bookingId roomId s
                 = (Ok {| BookingId.bookingId := bookingId |},
                    set_bookings (insert bookingId (movedRow old roomId)) s)).
  { rewrite (updateBooking_pass _ _ _ _ Hguards). by apply update_write. }
  subst s'. unfold outcome, final. rewrite Hrun. cbn [fst snd].
  split; [done|]. split; [apply lookup_insert_eq|].
  split; [intros k Hk; by apply lookup_insert_ne|].
  split.
  { simpl. rewrite dom_insert_L. apply elem_of_dom_2 in Hold. set_solver. }
  split; [done|].
  split; [|split].
  - rewrite (countOnRoom_replace _ _ old) by done. simpl.
    rewrite decide_False, decide_True by done. lia.
  - rewrite (countOnRoom_replace _ _ old) by done. simpl.
    rewrite decide_True by done. rewrite decide_False by congruence. lia.
  - intros R HR1 HR2. rewrite (countOnRoom_replace _ _ old) by done. simpl.
    rewrite !decide_False by congruence. lia.
Qed.

Lemma updateBooking_success_witness :
  outcome (updateBooking 2 1 6) demo = Ok {| BookingId.bookingId := 1 |}
  /\ bookings (final (updateBooking 2 1 6) demo) !! 1 = Some (newRow 2 6)
  /\ countOnRoom 6 (final (updateBooking 2 1 6) demo) = countOnRoom 6 demo + 1
  /\ countOnRoom 5 (final (updateBooking 2 1 6) demo) = countOnRoom 5 demo - 1.
Proof.
  destruct (updateBooking_success 2 1 6 (newRow 2 5) demo)
    as (Hout & Hrow & _ & _ & _ & Hnew & Hold & _).
  - unfold update_guards. split; [lia|]. split; [lia|]. split; [by_running|].
    split.
    + exists {| Room.row_capacity := 1; Room.row_hotelId := 1 |}.
      split; [by_running | vm_compute; congruence].
    + exists (newRow 2 5). split; [by_running|]. split; [|vm_compute; congruence].
      exists {| BookingWithRoom.id := 1; BookingWithRoom.Room := lookupRoom 5 demo |}.
      split; by_running.
  - by_running.
  - auto.
Defined.

(** ** Reading back what was written *)

Lemma createBooking_Ok_inv userId roomId b s :
  outcome (createBooking userId roomId) s = Ok b ->
  create_guards userId roomId s
  /\ bookings s !! bookingSeq s = None
  /\ createBooking userId roomId s
     = (Ok {| BookingId.bookingId := bookingSeq s |},
        bump_bookingSeq (set_bookings (insert (bookingSeq s) (newRow userId roomId)) s)).
Proof.
  unfold outcome.
  destruct (createBooking_cases userId roomId s) as [[Hg ->]|(e & _ & ->)]; [|done].
  destruct (create_write_cases userId roomId s) as [[Hfresh ->]| ->]; [|done].
  auto.
Qed.

Lemma updateBooking_Ok_inv userId bookingId roomId b s :
  outcome (updateBooking userId bookingId roomId) s = Ok b ->
  update_guards userId bookingId roomId s
  /\ exists old, bookings s !! bookingId = Some old
       /\ updateBooking userId bookingId roomId s
          = (Ok {| BookingId.bookingId := bookingId |},
             set_bookings (insert bookingId (movedRow old roomId)) s).
Proof.
  unfold outcome.
  destruct (updateBooking_cases userId bookingId roomId s) as [[Hg ->]|(e & _ & ->)]; [|done].
  intros _. split; [done|].
  destruct Hg as (_ & _ & _ & _ & old & Hold & _). exists old. split; [done|].
  by apply update_write.
Qed.

Lemma userBookingOf_after_create userId roomId k s :
  userBookingOf userId s = None ->
  userBookingOf userId (bump_bookingSeq (set_bookings (insert k (newRow userId roomId)) s))
  = Some {| BookingWithRoom.id := k; BookingWithRoom.Room := lookupRoom roomId s |}.
Proof.
  intros Hnone. apply userBookingOf_None in Hnone.
  unfold userBookingOf, bookingsOfUser in *. simpl.
  rewrite map_filter_insert_True by done.
  rewrite Hnone, insert_empty, map_to_list_singleton. reflexivity.
Qed.

Lemma userBookingOf_after_move userId bookingId roomId old bw s :
  bookings s !! bookingId = Some old ->
  userBookingOf userId s = Some bw ->
  BookingWithRoom.id bw = bookingId ->
  userBookingOf userId (set_bookings (insert bookingId (movedRow old roomId)) s)
  = Some {| BookingWithRoom.id := bookingId; BookingWithRoom.Room := lookupRoom roomId s |}.
Proof.
  intros Hold Hbw Hid. unfold userBookingOf in *.
  apply fmap_Some in Hbw as ((k & mine) & Hhead & ->). simpl in Hid. subst k.
  assert (Hmine : bookingsOfUser userId s !! bookingId = Some mine).
  { apply elem_of_map_to_list. by apply head_Some_elem_of. }
  apply map_lookup_filter_Some in Hmine as [Hk Hu]. simpl in Hu.
  rewrite Hold in Hk. injection Hk as <-.
  assert (Hafter : bookingsOfUser userId
                     (set_bookings (insert bookingId (movedRow old roomId)) s)
                   = <[bookingId := movedRow old roomId]> (bookingsOfUser userId s)).
  { unfold bookingsOfUser. simpl. by rewrite map_filter_insert_True. }
  assert (Hfirst : map_first_key (bookingsOfUser userId s) bookingId).
  { exists old. by rewrite <- head_lookup. }
  apply (map_first_key_dom' _ (<[bookingId := movedRow old roomId]> (bookingsOfUser userId s)))
    in Hfirst as [x Hx].
  2:{ intros j. rewrite lookup_insert_is_Some.
      split; [intros ?; destruct (decide (bookingId = j)); auto|].
      intros [<-|[_ ?]]; [|done].
      exists old. apply map_lookup_filter_Some. by rewrite Hold. }
  rewrite Hafter, head_lookup, Hx. simpl.
  assert (x = movedRow old roomId) as ->.
  { assert (Hin : (bookingId, x) ∈ map_to_list
                    (<[bookingId := movedRow old roomId]> (bookingsOfUser userId s))).
    { apply list_elem_of_lookup. eauto. }
    apply elem_of_map_to_list in Hin. rewrite lookup_insert_eq in Hin. congruence. }
  reflexivity.
Qed.

Lemma getBooking_found userId bw s :
  eligible userId s -> userBookingOf userId s = Some bw ->
  getBooking userId s = (Ok bw, s).
Proof.
  intros Hel Hbw. unfold getBooking. step Hel.
  step (findWithRoomByUserId_run userId s). by rewrite Hbw.
Qed.

(** X5. What [createBooking] stores, [getBooking] returns: after a
    successful [createBooking], the same user's [getBooking] succeeds with
    the id that was returned and with the room that was asked for. *)
Theorem getBooking_after_createBooking (userId roomId : Z) (b : BookingId.t) (s : Store) :
  outcome (createBooking userId roomId) s = Ok b ->
  let s' := final (createBooking userId roomId) s in
  exists r,
    rooms s !! roomId = Some r
    /\ getBooking userId s'
       = (Ok {| BookingWithRoom.id := BookingId.bookingId b;
                BookingWithRoom.Room :=
                  Some {| Room.id := roomId; Room.capacity := Room.row_capacity r;
                          Room.hotelId := Room.row_hotelId r |} |}, s').
Proof.
  intros Hok s'. pose proof Hok as Hb.
  apply createBooking_Ok_inv in Hok as ((_ & Hel & Hnone & r & Hroom & _) & _ & Hrun).
  subst s'. unfold outcome, final in *. rewrite Hrun in *. cbn [fst snd] in *.
  injection Hb as <-. exists r. split; [done|].
  apply getBooking_found.
  - by apply eligible_bump, eligible_set_bookings.
  - rewrite (userBookingOf_after_create _ _ _ _ Hnone). unfold lookupRoom.
    by rewrite Hroom.
Qed.

Lemma getBooking_after_createBooking_witness :
  exists r,
    rooms demo !! 6 = Some r
    /\ getBooking 1 (final (createBooking 1 6) demo)
       = (Ok {| BookingWithRoom.id := 2;
                BookingWithRoom.Room :=
                  Some {| Room.id := 6; Room.capacity := Room.row_capacity r;
                          Room.hotelId := Room.row_hotelId r |} |},
          final (createBooking 1 6) demo).
Proof.
  apply (getBooking_after_createBooking 1 6 {| BookingId.bookingId := 2 |} demo).
  by_running.
Defined.



(** X7. Asking twice: once [createBooking] has succeeded for a user, any
    further [createBooking] of that user is denied, whatever the room; once
    [updateBooking] has succeeded, the same request again is denied. In both
    cases the second request writes nothing. *)
Theorem second_request_is_denied
    (userId bookingId roomId roomId' : Z) (b : BookingId.t) (s : Store) :
  (outcome (createBooking userId roomId) s = Ok b ->
   let s' := final (createBooking userId roomId) s in
   createBooking userId roomId' s' = (Throw ForbiddenError, s'))
  /\ (outcome (updateBooking userId bookingId roomId) s = Ok b ->
      let s' := final (updateBooking userId bookingId roomId) s in
      updateBooking userId bookingId roomId s' = (Throw ForbiddenError, s')).
Proof.
  split.
  - intros Hok s'.
    apply createBooking_Ok_inv in Hok as ((_ & Hel & Hnone & _) & _ & Hrun).
    subst s'. unfold final. rewrite Hrun. cbn [snd].
    rewrite createBooking_run. destruct (roomId' <? 1); [done|].
    rewrite (eligible_bump _ _ (eligible_set_bookings _ _ _ Hel)).
    by rewrite (userBookingOf_after_create _ _ _ _ Hnone).
  - intros Hok s'.
    apply updateBooking_Ok_inv in Hok as (Hg & old & Hold & Hrun).
    destruct Hg as (Hr & Hb & Hel & (r & Hroom & _) & old' & Hold' & (bw & Hbw & Hid) & _).
    subst s'. unfold final. rewrite Hrun. cbn [snd].
    rewrite updateBooking_run.
    destruct (Z.ltb_spec roomId 1); [lia|]. destruct (Z.ltb_spec bookingId 1); [lia|].
    cbn [orb]. cbv iota.
    rewrite (eligible_set_bookings _ _ _ Hel).
    rewrite (userBookingOf_after_move _ _ _ _ _ _ Hold Hbw Hid).
    simpl. rewrite Hroom, lookup_insert_eq. simpl.
    rewrite !Z.eqb_refl. reflexivity.
Qed.

Lemma second_request_is_denied_witness :
  createBooking 1 5 (final (createBooking 1 6) demo)
  = (Throw ForbiddenError, final (createBooking 1 6) demo)
  /\ updateBooking 2 1 6 (final (updateBooking 2 1 6) demo)
     = (Throw ForbiddenError, final (updateBooking 2 1 6) demo).
Proof.
  split.
  - apply (second_request_is_denied 1 1 6 5 {| BookingId.bookingId := 2 |} demo).
    by_running.
  - apply (second_request_is_denied 2 1 6 6 {| BookingId.bookingId := 1 |} demo).
    by_running.
Defined.

(** ** What a run can do to the store *)

(** The final store of each operation is the initial one, or the initial
    one behind a single write whose checks have passed. *)
Lemma getBooking_final userId s : final (getBooking userId) s = s.
Proof.
  unfold final.
  destruct (getBooking_cases userId s) as [(bw & _ & _ & ->)|(e & _ & ->)]; done.
Qed.

Lemma createBooking_final userId roomId s :
  final (createBooking userId roomId) s = s
  \/ final (createBooking userId roomId) s = bump_bookingSeq s
  \/ (create_guards userId roomId s
      /\ bookings s !! bookingSeq s = None
      /\ final (createBooking userId roomId) s
         = bump_bookingSeq (set_bookings (insert (bookingSeq s) (newRow userId roomId)) s)).
Proof.
  unfold final.
  destruct (createBooking_cases userId roomId s) as [[Hg ->]|(e & _ & ->)]; [|by left].
  destruct (create_write_cases userId roomId s) as [[Hfresh ->]| ->]; auto.
Qed.

Lemma updateBooking_final userId bookingId roomId s :
  final (updateBooking userId bookingId roomId) s = s
  \/ (update_guards userId bookingId roomId s
      /\ exists old, bookings s !! bookingId = Some old
           /\ final (updateBooking userId bookingId roomId) s
              = set_bookings (insert bookingId (movedRow old roomId)) s).
Proof.
  unfold final.
  destruct (updateBooking_cases userId bookingId roomId s) as [[Hg ->]|(e & _ & ->)];
    [|by left].
  right. split; [done|].
  destruct Hg as (_ & _ & _ & _ & old & Hold & _). exists old. split; [done|].
  by rewrite (update_write _ _ _ _ Hold).
Qed.

Lemma keeps_refl s : keeps s s.
Proof. unfold keeps. repeat split; [lia|eauto]. Qed.

Lemma keeps_bump s : keeps s (bump_bookingSeq s).
Proof. unfold keeps. simpl. repeat split; [lia|eauto]. Qed.

(** X8. What no operation ever does, whatever its outcome: it does not
    write to the enrollments, the tickets or the rooms, it does not move
    the id sequence back, and it neither deletes a booking nor gives it to
    another user. *)
Theorem operations_keep_what_is_there (userId bookingId roomId : Z) (s : Store) :
  keeps s (final (getBooking userId) s)
  /\ keeps s (final (createBooking userId roomId) s)
  /\ keeps s (final (updateBooking userId bookingId roomId) s).
Proof.
  split; [|split].
  - rewrite getBooking_final. apply keeps_refl.
  - destruct (createBooking_final userId roomId s) as [-> |[-> |(_ & Hfresh & ->)]].
    + apply keeps_refl.
    + apply keeps_bump.
    + unfold keeps. simpl. repeat split; [lia|].
      intros k old Hk. exists old. split; [|done].
      rewrite lookup_insert_ne; [done|]. intros <-. congruence.
  - destruct (updateBooking_final userId bookingId roomId s)
      as [-> |(_ & old & Hold & ->)].
    + apply keeps_refl.
    + unfold keeps. simpl. repeat split; [lia|].
      intros k old' Hk. destruct (decide (k = bookingId)) as [->|Hne].
      * exists (movedRow old roomId). rewrite lookup_insert_eq. split; [done|].
        simpl. congruence.
      * exists old'. by rewrite lookup_insert_ne.
Qed.

(** ** Any history of requests *)

Lemma capacity_ok_step userId bookingId roomId s :
  capacity_ok s ->
  capacity_ok (final (createBooking userId roomId) s)
  /\ capacity_ok (final (updateBooking userId bookingId roomId) s).
Proof.
  intros Hcap. split.
  - destruct (createBooking_final userId roomId s)
      as [-> |[-> |((_ & _ & _ & r & Hroom & Hne) & _ & ->)]]; [done|done|].
    apply capacity_ok_bump. by apply (capacity_ok_insert _ _ r).
  - destruct (updateBooking_final userId bookingId roomId s)
      as [-> |((_ & _ & _ & (r & Hroom & Hne) & _) & old & _ & ->)]; [done|].
    by apply (capacity_ok_insert _ _ r).
Qed.

Lemma single_booking_step userId bookingId roomId s :
  single_booking s ->
  single_booking (final (createBooking userId roomId) s)
  /\ single_booking (final (updateBooking userId bookingId roomId) s).
Proof.
  intros Hone. split.
  - destruct (createBooking_final userId roomId s)
      as [-> |[-> |((_ & _ & Hnone & _) & _ & ->)]]; [done|done|].
    by apply (single_booking_insert_new userId roomId (bookingSeq s) s).
  - destruct (updateBooking_final userId bookingId roomId s)
      as [-> |(_ & old & Hold & ->)]; [done|].
    intros u. rewrite countOfUser_move by done. apply Hone.
Qed.

Lemma bookingsRouter_final m req s :
  snd (bookingsRouter m req s)
  = match m with
    | GET => final (getBooking (req_userId req)) s
    | POST => final (createBooking (req_userId req) (req_body_roomId req)) s
    | PUT => final (updateBooking (req_userId req) (req_params_bookingId req)
                      (req_body_roomId req)) s
    end.
Proof.
  unfold bookingsRouter, controllers.getBooking, controllers.postBooking,
    controllers.putBooking, final.
  destruct m.
  - by destruct (getBooking (req_userId req) s) as [[b|e] s'].
  - by destruct (createBooking (req_userId req) (req_body_roomId req) s) as [[b|e] s'].
  - by destruct (updateBooking (req_userId req) (req_params_bookingId req)
                   (req_body_roomId req) s) as [[b|e] s'].
Qed.

Lemma consistent_step m req s :
  consistent s -> consistent (snd (bookingsRouter m req s)).
Proof.
  intros (Hok & Hcap & Hone). rewrite bookingsRouter_final. unfold consistent.
  destruct m.
  - by rewrite getBooking_final.
  - split; [|split].
    + by apply (store_ok_preserved (req_userId req) 0 (req_body_roomId req) s).
    + by apply (capacity_ok_step (req_userId req) 0 (req_body_roomId req) s).
    + by apply (single_booking_step (req_userId req) 0 (req_body_roomId req) s).
  - split; [|split].
    + by apply (store_ok_preserved (req_userId req) (req_params_bookingId req)
                  (req_body_roomId req) s).
    + by apply (capacity_ok_step (req_userId req) (req_params_bookingId req)
                  (req_body_roomId req) s).
    + by apply (single_booking_step (req_userId req) (req_params_bookingId req)
                  (req_body_roomId req) s).
Qed.

(** X9. Served one after the other, requests of any kind, by any users, in
    any number, keep the store consistent: the schema's integrity
    constraints, the capacity of every room and one booking per user hold
    after the whole history if they held before it. *)
Theorem any_history_keeps_the_store_consistent
    (reqs : list (Method * AuthenticatedRequest)) (s : Store) :
  consistent s -> consistent (serveAll reqs s).
Proof.
  revert s. induction reqs as [|[m req] reqs IH]; intros s Hs; [exact Hs|].
  unfold serveAll. cbn [fold_left]. apply IH. by apply consistent_step.
Qed.

Lemma any_history_keeps_the_store_consistent_witness :
  consistent (serveAll [ (POST, mkRequest 1 6 0); (POST, mkRequest 3 6 0);
                         (PUT, mkRequest 2 6 1); (PUT, mkRequest 2 5 1);
                         (POST, mkRequest 3 5 0); (GET, mkRequest 1 0 0) ] demo).
Proof.
  apply any_history_keeps_the_store_consistent.
  split; [by_deciding|]. split; [by_deciding|]. apply single_booking_rows. by_deciding.
Defined.

(** ** The handlers *)



(** ** The pattern of the schemas *)

Lemma lang_Seq_inv r1 r2 s :
  lang (Seq r1 r2) s -> exists s1 s2, s = s1 ++ s2 /\ lang r1 s1 /\ lang r2 s2.
Proof. inversion 1; subst; eauto. Qed.

Lemma lang_Alt_inv r1 r2 s : lang (Alt r1 r2) s -> lang r1 s \/ lang r2 s.
Proof. inversion 1; subst; auto. Qed.

Lemma lang_nil_app r1 r2 : lang r1 [] -> lang r2 [] -> lang (Seq r1 r2) [].
Proof. intros H1 H2. exact (lang_Seq r1 r2 [] [] H1 H2). Qed.

Lemma nullable_lang r : nullable r = true <-> lang r [].
Proof.
  induction r as [| | c | lo hi | r1 IH1 r2 IH2 | r1 IH1 r2 IH2 | r IH]; simpl.
  - split; [discriminate | inversion 1].
  - split; [constructor | done].
  - split; [discriminate | inversion 1].
  - split; [discriminate | inversion 1].
  - rewrite orb_true_iff, IH1, IH2. split.
    + intros [H|H]; [by apply lang_Alt_l | by apply lang_Alt_r].
    + apply lang_Alt_inv.
  - rewrite andb_true_iff, IH1, IH2. split.
    + intros [H1 H2]. by apply lang_nil_app.
    + intros H. apply lang_Seq_inv in H as (s1 & s2 & Heq & H1 & H2).
      symmetry in Heq. apply app_eq_nil in Heq as [-> ->]. auto.
  - split; [constructor | done].
Qed.

Lemma lang_Star_cons r c s :
  lang (Star r) (c :: s) ->
  exists s1 s2, s = s1 ++ s2 /\ lang r (c :: s1) /\ lang (Star r) s2.
Proof.
  intros H. remember (Star r) as sr eqn:Hsr. remember (c :: s) as cs eqn:Hcs.
  revert s Hcs.
  induction H as [| | | | | | |r' s1 s2 H1 _ H2 IH2]; intros rest Hcs; try discriminate.
  injection Hsr as ->. destruct s1 as [|c1 s1].
  - simpl in Hcs. by apply IH2.
  - simpl in Hcs. injection Hcs as -> <-. eauto.
Qed.

Lemma lang_Seq_cons r1 r2 c s :
  lang (Seq r1 r2) (c :: s) ->
  (lang r1 [] /\ lang r2 (c :: s))
  \/ exists s1 s2, s = s1 ++ s2 /\ lang r1 (c :: s1) /\ lang r2 s2.
Proof.
  intros H. apply lang_Seq_inv in H as (s1 & s2 & Heq & H1 & H2).
  destruct s1 as [|c1 s1]; simpl in Heq.
  - left. by subst.
  - injection Heq as -> ->. right. eauto.
Qed.

Lemma deriv_lang c r s : lang (deriv c r) s <-> lang r (c :: s).
Proof.
  revert s.
  induction r as [| | c' | lo hi | r1 IH1 r2 IH2 | r1 IH1 r2 IH2 | r IH]; intros s; simpl.
  - split; inversion 1.
  - split; inversion 1.
  - destruct (Ascii.eqb_spec c' c) as [->|Hne].
    + split; inversion 1; subst; constructor.
    + split; inversion 1; subst; done.
  - destruct (inRange lo hi c) eqn:Hin.
    + split; inversion 1; subst; by constructor.
    + split; inversion 1; subst; congruence.
  - split; intros H; apply lang_Alt_inv in H as [H|H].
    + apply lang_Alt_l. by apply IH1.
    + apply lang_Alt_r. by apply IH2.
    + apply lang_Alt_l. by apply IH1.
    + apply lang_Alt_r. by apply IH2.
  - assert (Hcons : forall s1 s2, lang r1 (c :: s1) -> lang r2 s2 ->
                                  lang (Seq r1 r2) (c :: s1 ++ s2)).
    { intros s1 s2 H1 H2. exact (lang_Seq r1 r2 (c :: s1) s2 H1 H2). }
    destruct (nullable r1) eqn:Hnull.
    + split.
      * intros H. apply lang_Alt_inv in H as [H|H].
        -- apply lang_Seq_inv in H as (s1 & s2 & -> & H1 & H2).
           apply Hcons; [by apply IH1|done].
        -- apply nullable_lang in Hnull.
           exact (lang_Seq r1 r2 [] (c :: s) Hnull (proj1 (IH2 s) H)).
      * intros H. apply lang_Seq_cons in H as [[_ H2]|(s1 & s2 & -> & H1 & H2)].
        -- apply lang_Alt_r. by apply IH2.
        -- apply lang_Alt_l. constructor; [by apply IH1|done].
    + split.
      * intros H. apply lang_Seq_inv in H as (s1 & s2 & -> & H1 & H2).
        apply Hcons; [by apply IH1|done].
      * intros H. apply lang_Seq_cons in H as [[H1 _]|(s1 & s2 & -> & H1 & H2)].
        -- apply nullable_lang in H1. congruence.
        -- constructor; [by apply IH1|done].
  - split.
    + intros H. apply lang_Seq_inv in H as (s1 & s2 & -> & H1 & H2).
      exact (lang_Star_app r (c :: s1) s2 (proj1 (IH s1) H1) H2).
    + intros H. apply lang_Star_cons in H as (s1 & s2 & -> & H1 & H2).
      constructor; [by apply IH|done].
Qed.

Lemma test_lang r s : test r s = true <-> lang r s.
Proof.
  revert r. induction s as [|c s IH]; intros r; simpl.
  - apply nullable_lang.
  - rewrite IH. apply deriv_lang.
Qed.

Lemma lang_Star_digits s : lang (Star (Range "0" "9")) s <-> Forall isDigit s.
Proof.
  split.
  - intros H. remember (Star (Range "0" "9")) as sr eqn:Hsr.
    induction H as [| | | | | | |r s1 s2 H1 _ _ IH2]; try discriminate; [constructor|].
    injection Hsr as ->. inversion H1; subst. constructor; [done|]. by apply IH2.
  - induction 1 as [|c s Hc _ IH]; [constructor|].
    exact (lang_Star_app _ [c] s (lang_Range _ _ c Hc) IH).
Qed.

Lemma lang_Plus_digits s :
  lang (Plus (Range "0" "9")) s <-> s <> [] /\ Forall isDigit s.
Proof.
  unfold Plus. split.
  - intros H. apply lang_Seq_inv in H as (s1 & s2 & -> & H1 & H2).
    inversion H1; subst. apply lang_Star_digits in H2. split; [done|].
    by constructor.
  - intros [Hne Hall]. destruct Hall as [|c s Hc Hall]; [done|].
    apply lang_Star_digits in Hall.
    exact (lang_Seq _ _ [c] s (lang_Range _ _ c Hc) Hall).
Qed.

(** X11. [bookingParamsSchema] lets through exactly the strings made of one
    or more ASCII digits, with or without one minus sign in front. So the
    empty string, a lone sign, a plus sign, a decimal point, an exponent or
    a blank are refused, while zero and negative numbers pass validation
    and reach the handler. *)
Theorem bookingParamsSchema_accepts (bookingId : string) :
  bookingParamsSchema bookingId = true <->
  exists ds, ds <> [] /\ Forall isDigit ds
             /\ (list_ascii_of_string bookingId = ds
                 \/ list_ascii_of_string bookingId = "-"%char :: ds).
Proof.
  unfold bookingParamsSchema, digits, Opt. rewrite test_lang. split.
  - intros H. apply lang_Seq_inv in H as (s1 & s2 & -> & H1 & H2).
    apply lang_Plus_digits in H2 as [Hne Hall]. exists s2. split; [done|]. split; [done|].
    apply lang_Alt_inv in H1 as [H1|H1]; inversion H1; subst; auto.
  - intros (ds & Hne & Hall & [-> | ->]).
    + apply (lang_Seq _ _ [] ds); [apply lang_Alt_r; constructor|].
      by apply lang_Plus_digits.
    + apply (lang_Seq _ _ ["-"%char] ds); [apply lang_Alt_l; constructor|].
      by apply lang_Plus_digits.
Qed.

Example bookingParamsSchema_examples :
  bookingParamsSchema "12" = true
  /\ bookingParamsSchema "0" = true
  /\ bookingParamsSchema "-3" = true
  /\ bookingParamsSchema "007" = true
  /\ bookingParamsSchema "" = false
  /\ bookingParamsSchema "-" = false
  /\ bookingParamsSchema "+1" = false
  /\ bookingParamsSchema "1.5" = false
  /\ bookingParamsSchema "1e3" = false
  /\ bookingParamsSchema " 1" = false
  /\ bookingParamsSchema "--1" = false
  /\ bookingParamsSchema "1-" = false.
Proof. vm_compute. repeat split; reflexivity. Qed.

(** ** The booking repository *)

Lemma countOnRoom_fresh R k new s :
  bookings s !! k = None ->
  countOnRoom R (set_bookings (insert k new) s)
  = countOnRoom R s + (if decide (Booking.row_roomId new = R) then 1 else 0).
Proof.
  intros Hk. unfold countOnRoom, bookingsOnRoomId. simpl.
  rewrite (size_filter_fresh _ _ _ _ Hk). unfold hit. simpl.
  destruct (decide (Booking.row_roomId new = R)); lia.
Qed.

(** X12. [createByUserIdAndRoomId], when the insert goes through, returns
    a booking of the given user on the given room under an id that
    [findById] did not know; afterwards [findById] of that id returns
    exactly the booking that was returned, every other id reads as before,
    and [countBookingsByRoomId] is one more for that room and unchanged for
    every other room. *)
Theorem create_then_find (userId roomId : Z) (created : Booking.t) (s s' : Store) :
  bookingRepository.createByUserIdAndRoomId userId roomId s = (Ok created, s') ->
  Booking.userId created = userId
  /\ Booking.roomId created = roomId
  /\ bookingRepository.findById (Booking.id created) s = (Ok None, s)
  /\ bookingRepository.findById (Booking.id created) s' = (Ok (Some created), s')
  /\ (forall k, k <> Booking.id created ->
        outcome (bookingRepository.findById k) s' = outcome (bookingRepository.findById k) s)
  /\ outcome (bookingRepository.countBookingsByRoomId roomId) s'
     = Ok (countOnRoom roomId s + 1)
  /\ (forall R, R <> roomId ->
        outcome (bookingRepository.countBookingsByRoomId R) s'
        = outcome (bookingRepository.countBookingsByRoomId R) s).
Proof.
  unfold bookingRepository.createByUserIdAndRoomId.
  destruct (bookings s !! bookingSeq s) eqn:Hfresh; [discriminate|].
  intros [= <- <-]. unfold bookingRepository.findById,
    bookingRepository.countBookingsByRoomId, gets, outcome. simpl.
  split; [done|]. split; [done|]. split; [by rewrite Hfresh|].
  split; [by rewrite lookup_insert_eq|].
  split; [intros k Hk; by rewrite lookup_insert_ne|].
  split.
  - f_equal. change (countOnRoom roomId (bump_bookingSeq
      (set_bookings (insert (bookingSeq s) (newRow userId roomId)) s)))
      with (countOnRoom roomId (set_bookings (insert (bookingSeq s) (newRow userId roomId)) s)).
    rewrite countOnRoom_fresh by done. simpl. by rewrite decide_True.
  - intros R HR. f_equal. change (countOnRoom R (bump_bookingSeq
      (set_bookings (insert (bookingSeq s) (newRow userId roomId)) s)))
      with (countOnRoom R (set_bookings (insert (bookingSeq s) (newRow userId roomId)) s)).
    rewrite countOnRoom_fresh by done. simpl. rewrite decide_False by congruence. lia.
Qed.

Lemma create_then_find_witness :
  let s' := snd (bookingRepository.createByUserIdAndRoomId 3 6 demo) in
  bookingRepository.findById 2 demo = (Ok None, demo)
  /\ bookingRepository.findById 2 s'
     = (Ok (Some {| Booking.id := 2; Booking.userId := 3; Booking.roomId := 6 |}), s')
  /\ outcome (bookingRepository.countBookingsByRoomId 6) s' = Ok (countOnRoom 6 demo + 1).
Proof.
  intros s'.
  destruct (create_then_find 3 6 {| Booking.id := 2; Booking.userId := 3; Booking.roomId := 6 |}
              demo s') as (_ & _ & Hbefore & Hafter & _ & Hcount & _); [by_running|].
  auto.
Defined.



(** X14. [findWithRoomByUserId] returns nothing exactly when no booking has
    that [userId]. What it returns is the id of a booking of that user,
    joined with the room that booking's [roomId] names; where no user has
    two bookings, it is the user's one booking. *)
Theorem findWithRoomByUserId_finds (userId : Z) (s : Store) :
  exists found,
    bookingRepository.findWithRoomByUserId userId s = (Ok found, s)
    /\ (found = None <->
        forall k r, bookings s !! k = Some r -> Booking.row_userId r <> userId)
    /\ (forall bw, found = Some bw ->
        exists r, bookings s !! BookingWithRoom.id bw = Some r
                  /\ Booking.row_userId r = userId
                  /\ BookingWithRoom.Room bw
                     = Room.of_row (Booking.row_roomId r) <$> rooms s !! Booking.row_roomId r)
    /\ (single_booking s ->
        forall k r, bookings s !! k = Some r -> Booking.row_userId r = userId ->
                    exists bw, found = Some bw /\ BookingWithRoom.id bw = k).
Proof.
  exists (userBookingOf userId s). split; [reflexivity|]. split; [|split].
  - rewrite userBookingOf_None. apply bookingsOfUser_empty.
  - intros bw Hbw. by apply userBookingOf_Some.
  - intros Hone k r Hk Hu.
    destruct (userBookingOf userId s) as [bw|] eqn:Hbw.
    + exists bw. split; [done|].
      destruct (userBookingOf_Some _ _ _ Hbw) as (r' & Hk' & Hu' & _).
      apply single_booking_rows in Hone.
      symmetry. apply (Hone k r Hk _ r' Hk'). congruence.
    + apply userBookingOf_None in Hbw.
      pose proof (proj1 (bookingsOfUser_empty userId s) Hbw k r Hk). contradiction.
Qed.

Lemma findWithRoomByUserId_finds_witness :
  exists found,
    bookingRepository.findWithRoomByUserId 2 demo = (Ok found, demo)
    /\ exists bw, found = Some bw /\ BookingWithRoom.id bw = 1.
Proof.
  destruct (findWithRoomByUserId_finds 2 demo) as (found & Hrun & _ & _ & Hthe).
  exists found. split; [exact Hrun|].
  apply (Hthe (proj2 (single_booking_rows demo)
                 ltac:(by_deciding)) 1 (newRow 2 5)); by_running.
Defined.

(** ** The answers on a concrete store *)

Lemma createBooking_errors_witness :
  outcome (createBooking 1 0) demo = Throw ForbiddenError
  /\ outcome (createBooking 1 7) demo = Throw NotFoundError.
Proof.
  destruct (createBooking_errors 1 0 demo) as (Hdenied & _).
  destruct (createBooking_errors 1 7 demo) as (_ & Hmissing & _).
  split.
  - apply Hdenied. left. lia.
  - apply Hmissing. split; [lia|]. repeat split; by_running.
Defined.


Lemma bookingParamsSchema_accepts_witness :
  bookingParamsSchema "-40" = true.
Proof.
  apply bookingParamsSchema_accepts. exists ["4"%char; "0"%char].
  split; [discriminate|]. split; [|right; reflexivity].
  repeat constructor.
Defined.
